(** * traefik-validator: schema acquisition and caching

    A shallow embedding of [traefik_validator/utils.py] (classes
    [SchemaDownloader] and [Validator]) and of [traefik_validator/settings.py],
    together with the properties the specification states about them.

    Conventions of the embedding.
    - A Python [str] is a [string]: the sequence of bytes of its UTF-8
      encoding, so that [url.encode()] is the list of its bytes.
    - A [pathlib.Path] is the list of its components below the root.
    - [time.time()] and [st_mtime] are rationals (seconds); the rounding of
      the float subtraction is not modelled.
    - The cache directory on disk is a finite map from paths to files.
    - Python exceptions are values of [exn]; a method is a function from the
      world to an outcome (a value or a raised exception) and a new world. *)

From Stdlib Require Import ZArith QArith Lqa List String Ascii.
From stdpp Require Import gmap strings list fin_maps pretty.

(** ** MD5 (RFC 1321), as computed by [hashlib.md5(...).hexdigest()] *)

Module MD5.
Local Open Scope Z_scope.

Definition add32 (x y : Z) : Z := (x + y) mod 2 ^ 32.
Definition not32 (x : Z) : Z := Z.lxor x 0xffffffff.
Definition rotl32 (x n : Z) : Z :=
  Z.lor (Z.shiftl x n mod 2 ^ 32) (Z.shiftr x (32 - n)).

Definition FF (x y z : Z) : Z := Z.lor (Z.land x y) (Z.land (not32 x) z).
Definition GG (x y z : Z) : Z := Z.lor (Z.land x z) (Z.land y (not32 z)).
Definition HH (x y z : Z) : Z := Z.lxor (Z.lxor x y) z.
Definition II (x y z : Z) : Z := Z.lxor y (Z.lor x (not32 z)).

(** Per-round left-rotation amounts. *)
Definition shifts : list Z :=
  [7; 12; 17; 22; 7; 12; 17; 22; 7; 12; 17; 22; 7; 12; 17; 22;
   5; 9; 14; 20; 5; 9; 14; 20; 5; 9; 14; 20; 5; 9; 14; 20;
   4; 11; 16; 23; 4; 11; 16; 23; 4; 11; 16; 23; 4; 11; 16; 23;
   6; 10; 15; 21; 6; 10; 15; 21; 6; 10; 15; 21; 6; 10; 15; 21].

(** [K i = floor (2^32 * |sin (i + 1)|)]. *)
Definition sines : list Z :=
  [0xd76aa478; 0xe8c7b756; 0x242070db; 0xc1bdceee;
   0xf57c0faf; 0x4787c62a; 0xa8304613; 0xfd469501;
   0x698098d8; 0x8b44f7af; 0xffff5bb1; 0x895cd7be;
   0x6b901122; 0xfd987193; 0xa679438e; 0x49b40821;
   0xf61e2562; 0xc040b340; 0x265e5a51; 0xe9b6c7aa;
   0xd62f105d; 0x02441453; 0xd8a1e681; 0xe7d3fbc8;
   0x21e1cde6; 0xc33707d6; 0xf4d50d87; 0x455a14ed;
   0xa9e3e905; 0xfcefa3f8; 0x676f02d9; 0x8d2a4c8a;
   0xfffa3942; 0x8771f681; 0x6d9d6122; 0xfde5380c;
   0xa4beea44; 0x4bdecfa9; 0xf6bb4b60; 0xbebfbc70;
   0x289b7ec6; 0xeaa127fa; 0xd4ef3085; 0x04881d05;
   0xd9d4d039; 0xe6db99e5; 0x1fa27cf8; 0xc4ac5665;
   0xf4292244; 0x432aff97; 0xab9423a7; 0xfc93a039;
   0x655b59c3; 0x8f0ccc92; 0xffeff47d; 0x85845dd1;
   0x6fa87e4f; 0xfe2ce6e0; 0xa3014314; 0x4e0811a1;
   0xf7537e82; 0xbd3af235; 0x2ad7d2bb; 0xeb86d391].

Definition nthZ (l : list Z) (i : nat) : Z := nth i l 0.

(** The four chaining words A, B, C, D. *)
Record digest := Digest { dA : Z; dB : Z; dC : Z; dD : Z }.

Definition init : digest :=
  Digest 0x67452301 0xefcdab89 0x98badcfe 0x10325476.

(** Operation [i] (0..63) on a block of sixteen 32-bit words. *)
Definition step (M : list Z) (s : digest) (i : nat) : digest :=
  let '(Digest a b c d) := s in
  let '(f, g) :=
    match (i / 16)%nat with
    | 0%nat => (FF b c d, i)
    | 1%nat => (GG b c d, ((5 * i + 1) mod 16)%nat)
    | 2%nat => (HH b c d, ((3 * i + 5) mod 16)%nat)
    | _ => (II b c d, ((7 * i) mod 16)%nat)
    end in
  let x := add32 (add32 (add32 f a) (nthZ sines i)) (nthZ M g) in
  Digest d (add32 b (rotl32 x (nthZ shifts i))) b c.

Definition compress (s : digest) (M : list Z) : digest :=
  let '(Digest a b c d) := s in
  let '(Digest a' b' c' d') := fold_left (step M) (seq 0 64) s in
  Digest (add32 a a') (add32 b b') (add32 c c') (add32 d d').

(** Little-endian packing of bytes into 32-bit words. *)
Fixpoint words (bs : list Z) : list Z :=
  match bs with
  | b0 :: b1 :: b2 :: b3 :: rest =>
      (b0 + 256 * b1 + 65536 * b2 + 16777216 * b3) :: words rest
  | _ => []
  end.

Fixpoint blocks (fuel : nat) (bs : list Z) : list (list Z) :=
  match fuel, bs with
  | S n, _ :: _ => words (firstn 64 bs) :: blocks n (skipn 64 bs)
  | _, _ => []
  end.

Definition le_bytes (n : nat) (x : Z) : list Z :=
  map (fun k => Z.shiftr x (8 * Z.of_nat k) mod 256) (seq 0 n).

(** Message padding: a 1 bit, zeros up to 56 mod 64, the bit length on 64 bits. *)
Definition pad (msg : list Z) : list Z :=
  let len := Z.of_nat (length msg) in
  let zeros := Z.to_nat ((55 - len) mod 64) in
  msg ++ [128] ++ repeat 0 zeros ++ le_bytes 8 ((8 * len) mod 2 ^ 64).

Definition md5 (msg : list Z) : digest :=
  let p := pad msg in
  fold_left compress (blocks (length p) p) init.

Definition hexchar (n : Z) : ascii :=
  nth (Z.to_nat n) (list_ascii_of_string "0123456789abcdef") "0"%char.

Definition hex_byte (b : Z) : string :=
  String (hexchar (b / 16 mod 16)) (String (hexchar (b mod 16)) EmptyString).

Definition hex_word (w : Z) : string :=
  (hex_byte (w mod 256) ++ hex_byte (Z.shiftr w 8 mod 256) ++
   hex_byte (Z.shiftr w 16 mod 256) ++ hex_byte (Z.shiftr w 24 mod 256))%string.

Definition hex (s : digest) : string :=
  (hex_word (dA s) ++ hex_word (dB s) ++ hex_word (dC s) ++ hex_word (dD s))%string.

Definition bytes_of_string (s : string) : list Z :=
  map (fun c => Z.of_N (N_of_ascii c)) (list_ascii_of_string s).

(** [hashlib.md5(s.encode()).hexdigest()] *)
Definition hexdigest (s : string) : string := hex (md5 (bytes_of_string s)).

End MD5.

(** ** settings.py *)

Module settings.
Definition STATIC_CONFS_SCHEMA_URL : string :=
  "https://json.schemastore.org/traefik-v3.json".
Definition DYNAMIC_CONFS_SCHEMA_URL : string :=
  "https://json.schemastore.org/traefik-v3-file-provider.json".
End settings.

(** ** Paths, files, exceptions *)

(** A [pathlib.Path], as its components; [p // name] is [p / name] for a
    relative, single-component [name]. *)
Abbreviation Path := (list string).

Definition path_join (p : Path) (name : string) : Path := p ++ [name].
Infix "//" := path_join (at level 40, left associativity).

(** What the storage layer keeps for a regular file. *)
Record File := mkFile { st_mtime : Q; content : string }.

(** The Python exception classes that occur in [utils.py].  The class
    hierarchy matters to the [except] clauses: [HTTPError] is a subclass of
    [URLError]; [JSONDecodeError] and [UnicodeDecodeError] are subclasses of
    [ValueError].  [OtherException] stands for an instance of any other
    subclass of [Exception] that is a subclass of none of the classes listed
    (a [TypeError], [jsonschema]'s wrapped referencing error, ...). *)
Inductive exn : Type :=
  | ValueError (msg : string)
  | UnicodeDecodeError (object : string)
  | JSONDecodeError (doc : string)
  | URLError (reason : string)
  | HTTPError (code : N) (msg : string)
  | FileNotFoundError (filename : Path)
  | YAMLError (text : string)
  | JsonschemaValidationError (message : string) (path : list string)
  | JsonschemaSchemaError (message : string)
  | ValidationError (msg : string)
  | OtherException (class_name : string) (text : string).

(** [isinstance(e, ValueError)] *)
Definition is_ValueError (e : exn) : bool :=
  match e with
  | ValueError _ | UnicodeDecodeError _ | JSONDecodeError _ => true
  | _ => false
  end.

(** [isinstance(e, urllib.error.URLError)] *)
Definition is_URLError (e : exn) : bool :=
  match e with
  | URLError _ | HTTPError _ _ => true
  | _ => false
  end.

(** [str(e)] for the [urllib.error] classes. *)
Definition str_urlerror (e : exn) : string :=
  match e with
  | URLError reason => "<urlopen error " +:+ reason +:+ ">"
  | HTTPError code msg => "HTTP Error " +:+ pretty code +:+ ": " +:+ msg
  | _ => ""
  end.

(** What the network does with a request for a URL. *)
Inductive response : Type :=
  | Unreachable (reason : string)
  | HttpStatus (code : N) (msg : string)
  | Payload (body : string).

Inductive role : Type := Static | Dynamic.

(** Calls to collaborators, recorded in the order they happen: the request
    of [download_from_url] for a URL, the start of a role's validation, a
    line printed by [validate]. *)
Inductive event : Type :=
  | EvFetch (url : string)
  | EvAttempt (r : role)
  | EvPrint (line : string).

Record World := mkWorld {
  fs : gmap Path File;
  clock : Q;
  net : string -> response;
  trace : list event
}.

Definition log (ev : event) (w : World) : World :=
  mkWorld (fs w) (clock w) (net w) (trace w ++ [ev]).

Definition store (p : Path) (f : File) (w : World) : World :=
  mkWorld (<[p := f]> (fs w)) (clock w) (net w) (trace w).

(** Time passing, with nothing else happening. *)
Definition elapse (d : Q) (w : World) : World :=
  mkWorld (fs w) (clock w + d)%Q (net w) (trace w).

(** ** Methods as world transformers that may raise *)

Inductive outcome (A : Type) : Type :=
  | Return (a : A)
  | Raise (e : exn).
Arguments Return {A} a.
Arguments Raise {A} e.

Definition M (A : Type) : Type := World -> outcome A * World.

Definition ret {A} (a : A) : M A := fun w => (Return a, w).
Definition raise {A} (e : exn) : M A := fun w => (Raise e, w).

Definition bind {A B} (m : M A) (k : A -> M B) : M B :=
  fun w =>
    match m w with
    | (Return a, w') => k a w'
    | (Raise e, w') => (Raise e, w')
    end.

(** [try: m  except <clause> as e: h e]; the clause is the domain of [h]. *)
Definition try_except {A} (m : M A) (h : exn -> option (M A)) : M A :=
  fun w =>
    match m w with
    | (Return a, w') => (Return a, w')
    | (Raise e, w') =>
        match h e with
        | Some handler => handler w'
        | None => (Raise e, w')
        end
    end.

Declare Scope py_scope.
Delimit Scope py_scope with py.
Notation "x <- m ;; k" := (bind m (fun x => k))
  (at level 100, m at next level, right associativity) : py_scope.
Notation "m ;; k" := (bind m (fun _ => k))
  (at level 100, right associativity) : py_scope.
Local Open Scope py_scope.

(** The number of fetches in a trace. *)
Fixpoint fetches (t : list event) : nat :=
  match t with
  | [] => 0
  | EvFetch _ :: t' => S (fetches t')
  | _ :: t' => fetches t'
  end.

Definition Qltb (x y : Q) : bool :=
  match (x ?= y)%Q with Lt => true | _ => false end.

(** *** Storage, clock, network and console primitives *)

(** [p.exists()] *)
Definition path_exists (p : Path) : M bool :=
  fun w => (Return (bool_decide (is_Some (fs w !! p))), w).

(** [p.stat()] *)
Definition path_stat (p : Path) : M File :=
  fun w =>
    match fs w !! p with
    | Some f => (Return f, w)
    | None => (Raise (FileNotFoundError p), w)
    end.

(** [time.time()] *)
Definition time_time : M Q := fun w => (Return (clock w), w).

(** [open(p, 'r')] followed by reading the whole file. *)
Definition open_read (p : Path) : M string :=
  fun w =>
    match fs w !! p with
    | Some f => (Return (content f), w)
    | None => (Raise (FileNotFoundError p), w)
    end.

(** [open(p, 'w')] followed by writing [text]: the file is created or
    replaced, and the storage layer stamps it with the current time. *)
Definition open_write (p : Path) (text : string) : M unit :=
  fun w => (Return tt, store p (mkFile (clock w) text) w).

(** [urllib.request.urlopen(url)] followed by [f.read()]. *)
Definition urlopen_read (url : string) : M string :=
  fun w =>
    let w' := log (EvFetch url) w in
    match net w url with
    | Unreachable reason => (Raise (URLError reason), w')
    | HttpStatus code msg => (Raise (HTTPError code msg), w')
    | Payload body => (Return body, w')
    end.

Definition print (line : string) : M unit :=
  fun w => (Return tt, log (EvPrint line) w).

(** ** Library collaborators

    [pathlib], [json], [yaml] and [jsonschema] are used through their
    interface only. *)

(** What [jsonschema.validate(instance, schema)] does: return, raise
    [jsonschema.exceptions.ValidationError] (with its [message] and [path]),
    raise [jsonschema.exceptions.SchemaError], or raise an exception of
    another class (a [TypeError] when the schema document is neither an
    object nor a boolean, a wrapped referencing error when a [$ref] cannot
    be resolved).  The requests that the matcher itself makes to resolve
    remote references are not part of the model: the trace records the
    calls of [download_from_url] only. *)
Inductive verdict : Type :=
  | Conforms
  | Violates (message : string) (path : list string)
  | BadSchema (message : string)
  | Crashes (class_name : string) (text : string).

Class Externals := {
  (** [Path.home()] *)
  path_home : Path;
  (** a decoded JSON value *)
  document : Type;
  (** a loaded YAML value *)
  instance : Type;
  (** whether [bytes.decode('utf-8')] succeeds *)
  utf8_valid : string -> bool;
  (** [json.loads]: [None] when it raises [json.JSONDecodeError] *)
  json_loads : string -> option document;
  (** [json.dumps] *)
  json_dumps : document -> string;
  (** [yaml.safe_load]: [None] when it raises [yaml.YAMLError] *)
  yaml_safe_load : string -> option instance;
  jsonschema_validate : instance -> document -> verdict
}.

Definition ESC : string := String "027"%char EmptyString.
Definition green_check : string := ESC +:+ "[92m✓" +:+ ESC +:+ "[0m".
Definition red_cross : string := ESC +:+ "[91m✗" +:+ ESC +:+ "[0m".

Section Program.
Context `{Externals}.

(** [body.decode('utf-8')] *)
Definition decode_utf8 (body : string) : M string :=
  if utf8_valid body then ret body else raise (UnicodeDecodeError body).

(** [json.loads(text)] *)
Definition loads (text : string) : M document :=
  match json_loads text with
  | Some d => ret d
  | None => raise (JSONDecodeError text)
  end.

(** [with open(p, 'r') as f: return json.load(f)] *)
Definition json_load_file (p : Path) : M document :=
  text <- open_read p ;;
  loads text.

(** [with open(p, 'w') as f: json.dump(schema, f)] *)
Definition json_dump_file (p : Path) (schema : document) : M unit :=
  open_write p (json_dumps schema).

(** *** class SchemaDownloader *)

Record SchemaDownloader := mkSchemaDownloader {
  static_schema_url : string;
  dynamic_schema_url : string
}.

Definition CACHE_DIR : Path := path_home // ".traefik-validator" // "cache".
Definition CACHE_TTL : Q := 86400.

(** [__init__]; the cache directory it creates is taken to exist. *)
Definition SchemaDownloader_init : SchemaDownloader :=
  mkSchemaDownloader settings.STATIC_CONFS_SCHEMA_URL
                     settings.DYNAMIC_CONFS_SCHEMA_URL.

Definition _get_cache_path (url : string) : Path :=
  let url_hash := MD5.hexdigest url in
  CACHE_DIR // (url_hash +:+ ".json").

Definition _is_cache_valid (cache_path : Path) : M bool :=
  present <- path_exists cache_path ;;
  if negb present then ret false
  else
    now <- time_time ;;
    st <- path_stat cache_path ;;
    let cache_age := (now - st_mtime st)%Q in
    ret (Qltb cache_age CACHE_TTL).

Definition download_error (url : string) (e : exn) : exn :=
  ValueError ("Failed to download schema from " +:+ url +:+ ": " +:+ str_urlerror e).

Definition download_from_url (url : string) : M document :=
  try_except
    (body <- urlopen_read url ;;
     text <- decode_utf8 body ;;
     schema <- loads text ;;
     ret schema)
    (fun e => if is_URLError e then Some (raise (download_error url e)) else None).

Definition offline_error (url : string) : exn :=
  ValueError ("No cached schema available for " +:+ url +:+
              " and offline mode is enabled. " +:+
              "Run without --offline first to download schemas.").

Definition get_schema (url : string) (offline : bool) : M document :=
  let cache_path := _get_cache_path url in
  valid <- _is_cache_valid cache_path ;;
  if valid then json_load_file cache_path
  else if offline then
    present <- path_exists cache_path ;;
    if present then json_load_file cache_path
    else raise (offline_error url)
  else
    schema <- download_from_url url ;;
    json_dump_file cache_path schema ;;
    ret schema.

Definition get_static_schema (self : SchemaDownloader) (offline : bool) : M document :=
  get_schema (static_schema_url self) offline.

Definition get_dynamic_schema (self : SchemaDownloader) (offline : bool) : M document :=
  get_schema (dynamic_schema_url self) offline.

(** *** class Validator

    A configuration file object is the text it yields; any file object is
    truthy, so [if self.static_conf_file] tests for [None]. *)

Record Validator := mkValidator {
  static_conf_file : option string;
  dynamic_conf_file : option string;
  offline_mode : bool;
  schema_downloader : SchemaDownloader
}.

(** Truth value of an optional file object. *)
Definition truthy (file : option string) : bool :=
  match file with Some _ => true | None => false end.

Definition Validator_init (static_conf dynamic_conf : option string)
    (offline : bool) : outcome Validator :=
  if negb (existsb truthy [static_conf; dynamic_conf])
  then Raise (ValueError "User should pass either static config file or dynamic config file")
  else Return (mkValidator static_conf dynamic_conf offline SchemaDownloader_init).

(** [Validator.load_yaml] *)
Definition load_yaml (file : string) : M instance :=
  match yaml_safe_load file with
  | Some v => ret v
  | None => raise (YAMLError file)
  end.

(** [jsonschema.validate(instance=config_file, schema=schema_file)] *)
Definition jsonschema_check (config_file : instance) (schema_file : document) : M unit :=
  match jsonschema_validate config_file schema_file with
  | Conforms => ret tt
  | Violates message path => raise (JsonschemaValidationError message path)
  | BadSchema message => raise (JsonschemaSchemaError message)
  | Crashes class_name text => raise (OtherException class_name text)
  end.

(** Entering the body of a role's validation past its guard is recorded. *)
Definition attempt (r : role) : M unit :=
  fun w => (Return tt, log (EvAttempt r) w).

Definition _validate_static (self : Validator) : M unit :=
  match static_conf_file self with
  | None => ret tt
  | Some file =>
      attempt Static ;;
      schema_file <- get_static_schema (schema_downloader self) (offline_mode self) ;;
      config_file <- load_yaml file ;;
      jsonschema_check config_file schema_file
  end.

Definition _validate_dynamic (self : Validator) : M unit :=
  match dynamic_conf_file self with
  | None => ret tt
  | Some file =>
      attempt Dynamic ;;
      schema_file <- get_dynamic_schema (schema_downloader self) (offline_mode self) ;;
      config_file <- load_yaml file ;;
      jsonschema_check config_file schema_file
  end.

(** [" → ".join(str(p) for p in e.path) if e.path else "root"] *)
Definition error_path (path : list string) : string :=
  match path with
  | [] => "root"
  | _ => String.concat " → " path
  end.

(** The first [if]/[try] block of [validate]. *)
Definition validate_static_block (self : Validator)
    (validation_errors : list (string * exn)) : M (list (string * exn)) :=
  if truthy (static_conf_file self) then
    try_except
      (_validate_static self ;;
       print (green_check +:+ " Static configuration is valid") ;;
       ret validation_errors)
      (fun e =>
         match e with
         | JsonschemaValidationError message path =>
             Some (print (red_cross +:+ " Static configuration error: " +:+ message) ;;
                   print ("   at: " +:+ error_path path) ;;
                   ret (validation_errors ++ [("static"%string, e)]))
         | _ => None
         end)
  else ret validation_errors.

(** The second [if]/[try] block of [validate]. *)
Definition validate_dynamic_block (self : Validator)
    (validation_errors : list (string * exn)) : M (list (string * exn)) :=
  if truthy (dynamic_conf_file self) then
    try_except
      (_validate_dynamic self ;;
       print (green_check +:+ " Dynamic configuration is valid") ;;
       ret validation_errors)
      (fun e =>
         match e with
         | JsonschemaValidationError message path =>
             Some (print (red_cross +:+ " Dynamic configuration error: " +:+ message) ;;
                   print ("   at: " +:+ error_path path) ;;
                   ret (validation_errors ++ [("dynamic"%string, e)]))
         | _ => None
         end)
  else ret validation_errors.

Definition validate (self : Validator) : M unit :=
  validation_errors <- validate_static_block self [] ;;
  validation_errors <- validate_dynamic_block self validation_errors ;;
  match validation_errors with
  | [] => ret tt
  | _ => raise (ValidationError "Configuration validation failed")
  end.

(** *** The acquisition policy in the words of the specification *)

(** "fresh iff the entry exists AND (current_time - entry.last_modified) < TTL
    (TTL = 86400 seconds)". *)
Definition is_fresh (w : World) (loc : Path) : bool :=
  match fs w !! loc with
  | Some entry => Qltb (clock w - st_mtime entry) 86400
  | None => false
  end.

Inductive decision : Type :=
  | ServeCached
  | ServeStale
  | FailOfflineNoCache
  | FetchAndStore.

(** "Decision policy (evaluate in order, first match wins)". *)
Definition policy (w : World) (identifier : string) (offline : bool) : decision :=
  let loc := _get_cache_path identifier in
  if is_fresh w loc then ServeCached
  else if offline then
    (if bool_decide (is_Some (fs w !! loc)) then ServeStale else FailOfflineNoCache)
  else FetchAndStore.

(** The outcome of decoding a text as a JSON document. *)
Definition parsed (text : string) : outcome document :=
  match json_loads text with
  | Some d => Return d
  | None => Raise (JSONDecodeError text)
  end.

(** The outcome of the download for each behaviour of the network. *)
Definition fetched (url : string) (r : response) : outcome document :=
  match r with
  | Unreachable reason =>
      Raise (ValueError ("Failed to download schema from " +:+ url +:+
                         ": <urlopen error " +:+ reason +:+ ">"))
  | HttpStatus code msg =>
      Raise (ValueError ("Failed to download schema from " +:+ url +:+
                         ": HTTP Error " +:+ pretty code +:+ ": " +:+ msg))
  | Payload body =>
      if utf8_valid body then parsed body else Raise (UnicodeDecodeError body)
  end.

(** The effect of downloading [url] and saving the result to the cache. *)
Definition fetch_and_store (url : string) (w : World) : outcome document * World :=
  match fetched url (net w url) with
  | Return schema =>
      (Return schema,
       store (_get_cache_path url) (mkFile (clock w) (json_dumps schema)) (log (EvFetch url) w))
  | Raise e => (Raise e, log (EvFetch url) w)
  end.

Fixpoint attempts (r : role) (t : list event) : nat :=
  match t with
  | [] => 0
  | EvAttempt Static :: t' =>
      (match r with Static => 1 | Dynamic => 0 end) + attempts r t'
  | EvAttempt Dynamic :: t' =>
      (match r with Static => 0 | Dynamic => 1 end) + attempts r t'
  | _ :: t' => attempts r t'
  end.

(** Loading a configuration text and matching it against a schema. *)
Definition matched (file : string) (schema : document) : outcome unit :=
  match yaml_safe_load file with
  | None => Raise (YAMLError file)
  | Some config_file =>
      match jsonschema_validate config_file schema with
      | Conforms => Return tt
      | Violates message path => Raise (JsonschemaValidationError message path)
      | BadSchema message => Raise (JsonschemaSchemaError message)
      | Crashes class_name text => Raise (OtherException class_name text)
      end
  end.

(** How one role's validation ended: without error, or with a structural
    error of the schema matcher. *)
Definition passes (r : outcome unit) : bool :=
  match r with Return _ => true | Raise _ => false end.

Definition structural (r : outcome unit) : bool :=
  match r with Raise (JsonschemaValidationError _ _) => true | _ => false end.

End Program.

(** ** The command line: [validate_traefik] in [__init__.py]

    The model starts after [parser.parse_args()]: an argument of type
    [argparse.FileType('r')] is an open file (its text) or [None]. *)

Module EntryPoint.

Record Args := mkArgs {
  static_config : option string;
  dynamic_config : option string;
  offline : bool;
  json : bool;
  version : bool
}.

(** The [message] of the JSON object printed under [--json]. *)
Inductive json_message : Type :=
  | MsgValid                       (* "Configuration is valid" *)
  | MsgOf (e : exn)                (* str(e) *)
  | MsgUnexpected (e : exn).       (* f"Unexpected error: {str(e)}" *)

(** What [validate_traefik] itself writes to standard output, after
    whatever [Validator.validate] has printed. *)
Inductive line : Type :=
  | VersionLine (v : string)       (* traefik-validator version {v} *)
  | SupportsLine                   (* Supports Traefik v3.3.3 *)
  | HelpText                       (* parser.print_help() *)
  | UsageError                     (* Error: You must provide at least one ... *)
  | JsonResult (success : bool) (message : json_message)
  | AllValid                       (* All configurations are valid *)
  | Failed (e : exn)               (* {e} *)
  | ErrorLine (e : exn)            (* Error: {e} *)
  | Unexpected (e : exn).          (* Unexpected error: {e} *)

(** How the call ends: it returns, [sys.exit(code)] is raised and leaves
    through every [except] clause ([SystemExit] is not an [Exception]), or
    the import of [__version__] fails outside the [try]. *)
Inductive termination : Type :=
  | Returns
  | SysExit (code : Z)
  | UncaughtImportError.

(** The exit status of the process when [validate_traefik] is its entry
    point. *)
Definition exit_status (t : termination) : Z :=
  match t with
  | Returns => 0
  | SysExit code => code
  | UncaughtImportError => 1
  end.

(** The three [except] clauses, in order: [ValidationError] (of [utils]),
    [ValueError], [Exception]. *)
Definition handler (as_json : bool) (e : exn) : list line :=
  match e with
  | ValidationError _ =>
      [if as_json then JsonResult false (MsgOf e) else Failed e]
  | _ =>
      if is_ValueError e
      then [if as_json then JsonResult false (MsgOf e) else ErrorLine e]
      else [if as_json then JsonResult false (MsgUnexpected e) else Unexpected e]
  end.

Section Main.
Context `{Externals}.

(** [package_version] is the attribute [traefik_validator.__version__],
    when the package defines it. *)
Definition validate_traefik (package_version : option string) (args : Args)
    (w : World) : termination * list line * World :=
  if version args then
    match package_version with
    | None => (UncaughtImportError, [], w)
    | Some v => (SysExit 0, [VersionLine v; SupportsLine], w)
    end
  else if negb (truthy (static_config args)) && negb (truthy (dynamic_config args))
  then (SysExit 1, [HelpText; UsageError], w)
  else
    match Validator_init (static_config args) (dynamic_config args) (offline args) with
    | Raise e => (SysExit 1, handler (json args) e, w)
    | Return validator =>
        match validate validator w with
        | (Return _, w') =>
            (Returns, [if json args then JsonResult true MsgValid else AllValid], w')
        | (Raise e, w') => (SysExit 1, handler (json args) e, w')
        end
    end.

End Main.

End EntryPoint.

(** The URLs that [download_from_url] was called with, in order. *)
Fixpoint fetch_urls (t : list event) : list string :=
  match t with
  | [] => []
  | EvFetch url :: t' => url :: fetch_urls t'
  | _ :: t' => fetch_urls t'
  end.

(** The exceptions that [Validator.validate] lets out. *)
Definition escapes_validate (e : exn) : bool :=
  match e with
  | ValidationError _ | ValueError _ | UnicodeDecodeError _ | JSONDecodeError _
  | YAMLError _ | JsonschemaSchemaError _ | OtherException _ _ => true
  | _ => false
  end.

(** ** Concrete collaborators and worlds for the examples *)

Module Demo.

(** A text decodes as a JSON document when it is enclosed in braces; the
    decoded document is kept as its text. *)
Definition braced (text : string) : bool :=
  String.prefix "{" text &&
  match String.get (String.length text - 1) text with
  | Some c => Ascii.eqb c "}"
  | None => false
  end.

Definition ascii_only (body : string) : bool :=
  forallb (fun c => (N_of_ascii c <? 128)%N) (list_ascii_of_string body).

(** The schema of the tests: a router needs a [rule]. *)
Definition needs_rule (config schema : string) : verdict :=
  match String.index 0 "rule:" config with
  | Some _ => Conforms
  | None => Violates "'rule' is a required property" ["http"; "routers"; "r1"]
  end.

Definition externals : Externals := {|
  path_home := ["home"; "user"];
  document := string;
  instance := string;
  utf8_valid := ascii_only;
  json_loads := fun text => if braced text then Some text else None;
  json_dumps := fun d => d;
  yaml_safe_load := fun text => Some text;
  jsonschema_validate := needs_rule
|}.

Definition static_loc : Path :=
  @_get_cache_path externals settings.STATIC_CONFS_SCHEMA_URL.
Definition dynamic_loc : Path :=
  @_get_cache_path externals settings.DYNAMIC_CONFS_SCHEMA_URL.

Definition net_up (url : string) : response := Payload "{}".
Definition net_down (url : string) : response :=
  Unreachable "[Errno -2] Name or service not known".
Definition net_404 (url : string) : response := HttpStatus 404 "Not Found".
Definition net_html (url : string) : response := Payload "<html>".

(** No cache entry at all. *)
Definition w_empty (n : string -> response) : World :=
  mkWorld ∅ 1000000 n [].

(** An entry for the static schema written 1000 seconds ago. *)
Definition w_fresh (n : string -> response) (text : string) : World :=
  mkWorld {[ static_loc := mkFile 999000 text ]} 1000000 n [].

(** An entry for the static schema written 200000 seconds ago. *)
Definition w_stale (n : string -> response) (text : string) : World :=
  mkWorld {[ static_loc := mkFile 800000 text ]} 1000000 n [].

Definition both_files (offline : bool) : Validator :=
  mkValidator (Some "entryPoints: {}"%string)
              (Some "http: {routers: {r1: {rule: Host(`test.com`)}}}"%string)
              offline SchemaDownloader_init.

End Demo.

(** Further validators, arguments and worlds for the examples. *)
Module Scenario.

Definition only_static (offline : bool) : Validator :=
  mkValidator (Some "entryPoints: {}"%string) None offline SchemaDownloader_init.

Definition only_dynamic (offline : bool) : Validator :=
  mkValidator None
              (Some "http: {routers: {r1: {rule: Host(`test.com`)}}}"%string)
              offline SchemaDownloader_init.

(** [validate_traefik -d FILE] and
    [validate_traefik --json --offline -s FILE]. *)
Definition args_dynamic : EntryPoint.Args :=
  EntryPoint.mkArgs None
    (Some "http: {routers: {r1: {rule: Host(`test.com`)}}}"%string)
    false false false.

Definition args_json_offline_static : EntryPoint.Args :=
  EntryPoint.mkArgs (Some "entryPoints: {}"%string) None true true false.

(** Two distinct identifiers with the same MD5, and a world whose cache
    holds a stale entry written for the second one. *)
Definition ident_a : string :=
  "TEXTCOLLBYfGiJUETHQ4hAcKSMd5zYpgqf1YRDhkmxHkhPWptrkoyz28wnI9V0aHeAuaKnak".
Definition ident_b : string :=
  "TEXTCOLLBYfGiJUETHQ4hEcKSMd5zYpgqf1YRDhkmxHkhPWptrkoyz28wnI9V0aHeAuaKnak".

Definition w_shared : World :=
  mkWorld {[ @_get_cache_path Demo.externals ident_b := mkFile 800000 "{ }" ]}
          1000000 Demo.net_up [].

(** The world one hour after the static schema was fetched into the stale
    cache, and the world ten days after. *)
Definition w_after_fetch : World :=
  snd (@get_schema Demo.externals settings.STATIC_CONFS_SCHEMA_URL false
         (Demo.w_stale Demo.net_up "{ }")).

Definition w_hour_later : World := elapse 3600 w_after_fetch.
Definition w_ten_days_later : World := elapse 864000 w_after_fetch.

End Scenario.

(** ** MD5 test vectors *)

Example md5_empty : MD5.hexdigest "" = "d41d8cd98f00b204e9800998ecf8427e"%string.
Proof. vm_compute. reflexivity. Qed.

Example md5_abc : MD5.hexdigest "abc" = "900150983cd24fb0d6963f7d28e17f72"%string.
Proof. vm_compute. reflexivity. Qed.

Example md5_a56 :
  MD5.hex (MD5.md5 (repeat 97%Z 56)) = "3b0c8ac703f828b04c6c197006d17218"%string.
Proof. vm_compute. reflexivity. Qed.

Example md5_a120 :
  MD5.hex (MD5.md5 (repeat 97%Z 120)) = "5f61c0ccad4cac44c75ff505e1f1e537"%string.
Proof. vm_compute. reflexivity. Qed.

Example static_loc_value :
  Demo.static_loc =
  ["home"; "user"; ".traefik-validator"; "cache";
   "420f09d101c22b93df959f5cc5f5655d.json"]%string.
Proof. vm_compute. reflexivity. Qed.

(** ** Evaluation lemmas *)

Section Properties.
Context `{Externals}.

Local Open Scope py_scope.
Local Abbreviation locate := _get_cache_path.

Lemma Qltb_lt (x y : Q) : Qltb x y = true <-> (x < y)%Q.
Proof.
  unfold Qltb. rewrite Qlt_alt.
  destruct (x ?= y)%Q; split; intros; congruence.
Qed.

Lemma path_exists_eval (p : Path) (w : World) :
  path_exists p w =
  (Return (match fs w !! p with Some _ => true | None => false end), w).
Proof.
  unfold path_exists. destruct (fs w !! p) eqn:E.
  - rewrite bool_decide_eq_true_2; eauto.
  - rewrite bool_decide_eq_false_2; [reflexivity|]. intros [f Hf]. discriminate.
Qed.

Lemma is_cache_valid_eval (p : Path) (w : World) :
  _is_cache_valid p w = (Return (is_fresh w p), w).
Proof.
  unfold _is_cache_valid, is_fresh, bind. rewrite path_exists_eval.
  unfold path_stat, time_time, CACHE_TTL.
  destruct (fs w !! p) eqn:E; simpl; [rewrite E|]; reflexivity.
Qed.

Lemma loads_eval (text : string) (w : World) :
  loads text w = (parsed text, w).
Proof. unfold loads, parsed. destruct (json_loads text); reflexivity. Qed.

Lemma json_load_file_eval (p : Path) (w : World) (f : File) :
  fs w !! p = Some f -> json_load_file p w = (parsed (content f), w).
Proof.
  intros E. unfold json_load_file, bind, open_read. rewrite E.
  apply loads_eval.
Qed.

Lemma download_from_url_eval (url : string) (w : World) :
  download_from_url url w = (fetched url (net w url), log (EvFetch url) w).
Proof.
  unfold download_from_url, try_except, bind, urlopen_read, fetched.
  destruct (net w url) as [reason|code msg|body]; simpl; try reflexivity.
  unfold decode_utf8. destruct (utf8_valid body); simpl.
  - rewrite loads_eval. unfold parsed.
    destruct (json_loads body); reflexivity.
  - reflexivity.
Qed.

Lemma get_schema_eval (url : string) (offline : bool) (w : World) :
  get_schema url offline w =
  match fs w !! locate url with
  | Some entry =>
      if is_fresh w (locate url) || offline
      then (parsed (content entry), w)
      else fetch_and_store url w
  | None =>
      if offline then (Raise (offline_error url), w) else fetch_and_store url w
  end.
Proof.
  unfold get_schema, bind. rewrite is_cache_valid_eval.
  assert (Hfetch :
    (let (o, w') := download_from_url url w in
     match o with
     | Return a =>
         let (o0, w'0) := json_dump_file (locate url) a w' in
         match o0 with
         | Return _ => ret a w'0
         | Raise e => (Raise e, w'0)
         end
     | Raise e => (Raise e, w')
     end) = fetch_and_store url w).
  { rewrite download_from_url_eval. unfold fetch_and_store.
    destruct (fetched url (net w url)); reflexivity. }
  destruct (fs w !! locate url) as [entry|] eqn:E.
  - destruct (is_fresh w (locate url)) eqn:F; cbv beta iota.
    + apply json_load_file_eval, E.
    + destruct offline; cbv beta iota.
      * rewrite path_exists_eval, E. apply json_load_file_eval, E.
      * exact Hfetch.
  - assert (F : is_fresh w (locate url) = false)
      by (unfold is_fresh; rewrite E; reflexivity).
    rewrite F. destruct offline; cbv beta iota.
    + rewrite path_exists_eval, E. reflexivity.
    + exact Hfetch.
Qed.

Lemma fetch_and_store_trace (url : string) (w : World) :
  trace (snd (fetch_and_store url w)) = trace w ++ [EvFetch url].
Proof. unfold fetch_and_store. destruct (fetched url (net w url)); reflexivity. Qed.

Lemma fetches_app (t1 t2 : list event) :
  fetches (t1 ++ t2) = fetches t1 + fetches t2.
Proof.
  induction t1 as [|ev t1 IH]; simpl; [reflexivity|].
  destruct ev; simpl; rewrite IH; reflexivity.
Qed.

Lemma policy_cases (url : string) (offline : bool) (w : World) :
  policy w url offline =
  match fs w !! locate url with
  | Some _ =>
      if is_fresh w (locate url) then ServeCached
      else if offline then ServeStale else FetchAndStore
  | None => if offline then FailOfflineNoCache else FetchAndStore
  end.
Proof.
  unfold policy. destruct (fs w !! locate url) as [entry|] eqn:E.
  - rewrite bool_decide_eq_true_2 by eauto. reflexivity.
  - assert (F : is_fresh w (locate url) = false)
      by (unfold is_fresh; rewrite E; reflexivity).
    rewrite F, bool_decide_eq_false_2; [reflexivity|].
    intros [f Hf]; discriminate.
Qed.

(** ** The cache location *)

Lemma hexchar_digit (n : Z) :
  In (MD5.hexchar n) (list_ascii_of_string "0123456789abcdef").
Proof.
  unfold MD5.hexchar.
  destruct (nth_in_or_default (Z.to_nat n)
              (list_ascii_of_string "0123456789abcdef") "0"%char) as [Hin | ->].
  - exact Hin.
  - simpl. auto.
Qed.

Lemma hex_length (d : MD5.digest) : String.length (MD5.hex d) = 32.
Proof. reflexivity. Qed.

Lemma hex_digits (d : MD5.digest) :
  Forall (fun c => In c (list_ascii_of_string "0123456789abcdef"))
         (list_ascii_of_string (MD5.hex d)).
Proof.
  cbv [MD5.hex MD5.hex_word MD5.hex_byte String.append list_ascii_of_string].
  repeat (constructor; [apply hexchar_digit|]). constructor.
Qed.

Lemma list_ascii_of_append (s t : string) :
  list_ascii_of_string (s +:+ t) = list_ascii_of_string s ++ list_ascii_of_string t.
Proof.
  induction s as [|c s IH]; [reflexivity|].
  change (String c s +:+ t) with (String c (s +:+ t)). simpl. now rewrite IH.
Qed.

Lemma append_inv_tail (s1 s2 t : string) : s1 +:+ t = s2 +:+ t -> s1 = s2.
Proof.
  intros E. apply (f_equal list_ascii_of_string) in E.
  rewrite !list_ascii_of_append in E. apply app_inv_tail in E.
  rewrite <- (string_of_list_ascii_of_string s1),
          <- (string_of_list_ascii_of_string s2).
  now rewrite E.
Qed.

(** Two identifiers have the same cache location exactly when their MD5
    digests are the same. *)
Lemma get_cache_path_eq_iff (a b : string) :
  locate a = locate b <-> MD5.hexdigest a = MD5.hexdigest b.
Proof.
  unfold _get_cache_path, path_join. split.
  - intros E. apply app_inv_head in E.
    exact (append_inv_tail _ _ _ (f_equal (hd EmptyString) E)).
  - intros ->. reflexivity.
Qed.

(** The shape of a cache location: the file named by the 32 hexadecimal
    digits of the MD5 of the identifier followed by ".json", directly
    under the cache root [~/.traefik-validator/cache]. *)
Lemma get_cache_path_shape (a : string) :
  locate a = path_home // ".traefik-validator" // "cache"
                       // (MD5.hexdigest a +:+ ".json") /\
  CACHE_DIR `prefix_of` locate a /\
  String.length (MD5.hexdigest a) = 32 /\
  Forall (fun c => In c (list_ascii_of_string "0123456789abcdef"))
         (list_ascii_of_string (MD5.hexdigest a)).
Proof.
  split; [reflexivity|]. split.
  { exists [MD5.hexdigest a +:+ ".json"]. reflexivity. }
  split; [apply hex_length|apply hex_digits].
Qed.

(** ** The cache store *)

(** C2. [_is_cache_valid] never raises and leaves the world as it is; it
    answers false for a location that does not exist, and for an existing
    file it answers true exactly when the current time minus the file's
    modification time is strictly below 86400 seconds. *)
Theorem is_cache_valid_fails_closed_and_ttl (cache_path : Path) (w : World) :
  exists answer : bool,
    _is_cache_valid cache_path w = (Return answer, w) /\
    (fs w !! cache_path = None -> answer = false) /\
    (forall entry, fs w !! cache_path = Some entry ->
       (answer = true <-> (clock w - st_mtime entry < 86400)%Q)).
Proof.
  exists (is_fresh w cache_path). split; [apply is_cache_valid_eval|].
  unfold is_fresh. split.
  - intros ->. reflexivity.
  - intros entry ->. apply Qltb_lt.
Qed.

(** ** The schema provider *)

(** C1. [get_schema] follows the first-match policy of the specification:
    a fresh entry, or any entry in offline mode, is decoded and returned with
    the world (hence the cache and the list of fetches) untouched; offline
    with no entry raises the error that names the identifier and tells to run
    without --offline, again with the world untouched; otherwise the URL is
    fetched exactly once, and a fetched document is written to the cache
    location and returned. *)
Theorem get_schema_follows_policy (url : string) (offline : bool) (w : World) :
  match policy w url offline with
  | ServeCached | ServeStale =>
      exists entry,
        fs w !! locate url = Some entry /\
        get_schema url offline w = (parsed (content entry), w)
  | FailOfflineNoCache =>
      fs w !! locate url = None /\
      get_schema url offline w =
        (Raise (ValueError ("No cached schema available for " +:+ url +:+
                            " and offline mode is enabled. " +:+
                            "Run without --offline first to download schemas.")),
         w)
  | FetchAndStore =>
      let result := fst (get_schema url offline w) in
      let w' := snd (get_schema url offline w) in
      trace w' = trace w ++ [EvFetch url] /\
      fetches (trace w') = S (fetches (trace w)) /\
      result = fetched url (net w url) /\
      (forall schema, fetched url (net w url) = Return schema ->
         result = Return schema /\
         fs w' = <[locate url := mkFile (clock w) (json_dumps schema)]> (fs w))
  end.
Proof.
  rewrite policy_cases, get_schema_eval.
  destruct (fs w !! locate url) as [entry|] eqn:E.
  - destruct (is_fresh w (locate url)); simpl; [eauto|].
    destruct offline; simpl; [eauto|].
    rewrite fetch_and_store_trace, fetches_app. simpl.
    split; [reflexivity|]. split; [lia|].
    unfold fetch_and_store.
    destruct (fetched url (net w url)) as [d|e]; simpl;
      (split; [reflexivity|]); intros schema [= <-]; auto.
  - destruct offline; simpl; [auto|].
    rewrite fetch_and_store_trace, fetches_app. simpl.
    split; [reflexivity|]. split; [lia|].
    unfold fetch_and_store.
    destruct (fetched url (net w url)) as [d|e]; simpl;
      (split; [reflexivity|]); intros schema [= <-]; auto.
Qed.

(** C5. Online, with a missing or stale entry, a failing download makes
    [get_schema] raise that same error: no document is returned (in
    particular not the stale one), the URL was requested once, and the
    cache is what it was. *)
Theorem get_schema_propagates_fetch_failure
    (url : string) (w w1 : World) (e : exn)
    (Hnot_fresh : is_fresh w (locate url) = false)
    (Hfails : download_from_url url w = (Raise e, w1)) :
  get_schema url false w = (Raise e, w1) /\
  (forall stale, fst (get_schema url false w) <> Return stale) /\
  fetches (trace w1) = S (fetches (trace w)) /\
  fs w1 = fs w.
Proof.
  rewrite download_from_url_eval in Hfails.
  injection Hfails as Hf Hw. subst w1.
  rewrite get_schema_eval, Hnot_fresh. unfold fetch_and_store. rewrite Hf.
  simpl. rewrite fetches_app. simpl.
  destruct (fs w !! locate url); repeat split; auto; try lia; discriminate.
Qed.


(** An entry stamped with the current time is fresh, stays fresh for less
    than 86400 seconds, and is stale from then on. *)
Lemma stamped_entry_freshness (loc : Path) (text : string) (w1 w2 : World) :
  fs w2 !! loc = Some (mkFile (clock w1) text) ->
  is_fresh w2 loc = true <-> (clock w2 - clock w1 < 86400)%Q.
Proof. intros E. unfold is_fresh. rewrite E. simpl. apply Qltb_lt. Qed.

(** C8. Right after the cache write of [get_schema] (for any location and
    document) the location is fresh; once 86400 seconds have passed since
    the write, in any world where the location still holds that entry, it is
    not fresh.  The write of a successful fetch in [get_schema] is such a
    write. *)
Theorem freshness_after_write (loc : Path) (x : document) (w : World) :
  let w1 := snd (json_dump_file loc x w) in
  _is_cache_valid loc w1 = (Return true, w1) /\
  (forall w2,
     fs w2 !! loc = fs w1 !! loc ->
     (clock w1 + 86400 <= clock w2)%Q ->
     _is_cache_valid loc w2 = (Return false, w2)) /\
  (forall url offline,
     loc = locate url ->
     policy w url offline = FetchAndStore ->
     fetched url (net w url) = Return x ->
     fs (snd (get_schema url offline w)) = fs w1 /\
     clock (snd (get_schema url offline w)) = clock w1).
Proof.
  cbv zeta.
  change (snd (json_dump_file loc x w))
    with (store loc (mkFile (clock w) (json_dumps x)) w).
  set (w1 := store loc (mkFile (clock w) (json_dumps x)) w).
  assert (E1 : fs w1 !! loc = Some (mkFile (clock w1) (json_dumps x)))
    by apply lookup_insert_eq.
  split; [|split].
  - rewrite is_cache_valid_eval. f_equal. f_equal.
    apply (stamped_entry_freshness loc (json_dumps x) w1 w1 E1). lra.
  - intros w2 Hsame Hlate. rewrite is_cache_valid_eval. f_equal. f_equal.
    rewrite E1 in Hsame.
    destruct (is_fresh w2 loc) eqn:F; [|reflexivity].
    apply (stamped_entry_freshness loc (json_dumps x) w1 w2 Hsame) in F. lra.
  - intros url offline -> Hpolicy Hfetched.
    rewrite policy_cases in Hpolicy. rewrite get_schema_eval.
    unfold fetch_and_store. rewrite Hfetched.
    destruct (fs w !! locate url); [destruct (is_fresh w (locate url))|];
      destruct offline; try discriminate; split; reflexivity.
Qed.

(** C6, as the code has it. An entry that exists but does not decode is
    not treated as absent: whenever the policy reads the entry (it is fresh,
    or the mode is offline) the decoder's error is raised, nothing is
    fetched and the world is untouched; only a stale entry in online mode
    leads to a fetch, and then the entry is not read at all. *)
Theorem undecodable_entry_is_surfaced
    (url : string) (offline : bool) (w : World) (entry : File)
    (Hentry : fs w !! locate url = Some entry)
    (Hbad : json_loads (content entry) = None) :
  (is_fresh w (locate url) || offline = true ->
     get_schema url offline w = (Raise (JSONDecodeError (content entry)), w)) /\
  (is_fresh w (locate url) || offline = false ->
     fst (get_schema url offline w) = fetched url (net w url) /\
     trace (snd (get_schema url offline w)) = trace w ++ [EvFetch url]).
Proof.
  rewrite get_schema_eval, Hentry.
  destruct (is_fresh w (locate url) || offline); split; intros Hc;
    try discriminate.
  - unfold parsed. rewrite Hbad. reflexivity.
  - rewrite fetch_and_store_trace. unfold fetch_and_store.
    destruct (fetched url (net w url)); auto.
Qed.


(** ** The validator *)

Lemma attempts_app (r : role) (t1 t2 : list event) :
  attempts r (t1 ++ t2) = attempts r t1 + attempts r t2.
Proof.
  induction t1 as [|ev t1 IH]; simpl; [reflexivity|].
  destruct ev as [u|[]|l]; rewrite IH; lia.
Qed.

Lemma get_schema_trace (url : string) (offline : bool) (w : World) :
  trace (snd (get_schema url offline w)) = trace w \/
  trace (snd (get_schema url offline w)) = trace w ++ [EvFetch url].
Proof.
  rewrite get_schema_eval.
  destruct (fs w !! locate url); [destruct (is_fresh w (locate url))|];
    destruct offline; simpl; auto; right; apply fetch_and_store_trace.
Qed.

Lemma get_schema_attempts (r : role) (url : string) (offline : bool) (w : World) :
  attempts r (trace (snd (get_schema url offline w))) = attempts r (trace w).
Proof.
  destruct (get_schema_trace url offline w) as [-> | ->]; [reflexivity|].
  rewrite attempts_app. simpl. lia.
Qed.

Lemma fetched_raises_ValueError (url : string) (r : response) (e : exn) :
  fetched url r = Raise e -> is_ValueError e = true.
Proof.
  unfold fetched, parsed. destruct r as [reason|code msg|body].
  - intros [= <-]. reflexivity.
  - intros [= <-]. reflexivity.
  - destruct (utf8_valid body); [destruct (json_loads body)|];
      intros [= <-]; reflexivity.
Qed.

(** Every exception of [get_schema] is an instance of [ValueError]. *)
Lemma get_schema_raises_ValueError
    (url : string) (offline : bool) (w w' : World) (e : exn) :
  get_schema url offline w = (Raise e, w') -> is_ValueError e = true.
Proof.
  rewrite get_schema_eval. unfold fetch_and_store, parsed, offline_error.
  destruct (fs w !! locate url) as [entry|];
    [destruct (is_fresh w (locate url) || offline);
       [destruct (json_loads (content entry))|]
    |destruct offline];
    try (intros [= <- _]; reflexivity); try discriminate;
    destruct (fetched url (net w url)) eqn:F; intros [= <- _];
    eapply fetched_raises_ValueError; eassumption.
Qed.

Lemma validate_static_eval (self : Validator) (file : string) (w : World) :
  static_conf_file self = Some file ->
  _validate_static self w =
  match get_static_schema (schema_downloader self) (offline_mode self)
                          (log (EvAttempt Static) w) with
  | (Return schema, w1) => (matched file schema, w1)
  | (Raise e, w1) => (Raise e, w1)
  end.
Proof.
  intros E. unfold _validate_static, bind, attempt. rewrite E.
  destruct (get_static_schema _ _ _) as [[schema|e] w1]; [|reflexivity].
  unfold load_yaml, matched, jsonschema_check.
  destruct (yaml_safe_load file) as [config|]; [|reflexivity].
  cbv beta iota delta [ret].
  destruct (jsonschema_validate config schema); reflexivity.
Qed.

Lemma validate_dynamic_eval (self : Validator) (file : string) (w : World) :
  dynamic_conf_file self = Some file ->
  _validate_dynamic self w =
  match get_dynamic_schema (schema_downloader self) (offline_mode self)
                           (log (EvAttempt Dynamic) w) with
  | (Return schema, w1) => (matched file schema, w1)
  | (Raise e, w1) => (Raise e, w1)
  end.
Proof.
  intros E. unfold _validate_dynamic, bind, attempt. rewrite E.
  destruct (get_dynamic_schema _ _ _) as [[schema|e] w1]; [|reflexivity].
  unfold load_yaml, matched, jsonschema_check.
  destruct (yaml_safe_load file) as [config|]; [|reflexivity].
  cbv beta iota delta [ret].
  destruct (jsonschema_validate config schema); reflexivity.
Qed.

(** A role's validation records its own attempt and nobody else's. *)
Lemma validate_static_attempts (self : Validator) (file : string) (w : World) (r : role) :
  static_conf_file self = Some file ->
  attempts r (trace (snd (_validate_static self w))) =
  attempts r [EvAttempt Static] + attempts r (trace w).
Proof.
  intros E. rewrite (validate_static_eval self file w E).
  unfold get_static_schema.
  pose proof (get_schema_attempts r (static_schema_url (schema_downloader self))
                (offline_mode self) (log (EvAttempt Static) w)) as A.
  destruct (get_schema _ _ _) as [[schema|e] w1]; simpl in A |- *;
    rewrite A, attempts_app; simpl; lia.
Qed.

Lemma validate_dynamic_attempts (self : Validator) (file : string) (w : World) (r : role) :
  dynamic_conf_file self = Some file ->
  attempts r (trace (snd (_validate_dynamic self w))) =
  attempts r [EvAttempt Dynamic] + attempts r (trace w).
Proof.
  intros E. rewrite (validate_dynamic_eval self file w E).
  unfold get_dynamic_schema.
  pose proof (get_schema_attempts r (dynamic_schema_url (schema_downloader self))
                (offline_mode self) (log (EvAttempt Dynamic) w)) as A.
  destruct (get_schema _ _ _) as [[schema|e] w1]; simpl in A |- *;
    rewrite A, attempts_app; simpl; lia.
Qed.

Lemma static_block_eval (self : Validator) (file : string)
    (errs : list (string * exn)) (w : World) :
  static_conf_file self = Some file ->
  validate_static_block self errs w =
  match _validate_static self w with
  | (Return _, w1) =>
      (Return errs,
       log (EvPrint (green_check +:+ " Static configuration is valid")) w1)
  | (Raise (JsonschemaValidationError message path), w1) =>
      (Return (errs ++ [("static"%string, JsonschemaValidationError message path)]),
       log (EvPrint ("   at: " +:+ error_path path))
         (log (EvPrint (red_cross +:+ " Static configuration error: " +:+ message)) w1))
  | (Raise e, w1) => (Raise e, w1)
  end.
Proof.
  intros E. unfold validate_static_block, try_except, bind. rewrite E. simpl.
  destruct (_validate_static self w) as [[u|e] w1]; [reflexivity|].
  destruct e; reflexivity.
Qed.

Lemma dynamic_block_eval (self : Validator) (file : string)
    (errs : list (string * exn)) (w : World) :
  dynamic_conf_file self = Some file ->
  validate_dynamic_block self errs w =
  match _validate_dynamic self w with
  | (Return _, w1) =>
      (Return errs,
       log (EvPrint (green_check +:+ " Dynamic configuration is valid")) w1)
  | (Raise (JsonschemaValidationError message path), w1) =>
      (Return (errs ++ [("dynamic"%string, JsonschemaValidationError message path)]),
       log (EvPrint ("   at: " +:+ error_path path))
         (log (EvPrint (red_cross +:+ " Dynamic configuration error: " +:+ message)) w1))
  | (Raise e, w1) => (Raise e, w1)
  end.
Proof.
  intros E. unfold validate_dynamic_block, try_except, bind. rewrite E. simpl.
  destruct (_validate_dynamic self w) as [[u|e] w1]; [reflexivity|].
  destruct e; reflexivity.
Qed.

Lemma attempts_log_print (r : role) (line : string) (w : World) :
  attempts r (trace (log (EvPrint line) w)) = attempts r (trace w).
Proof. simpl. rewrite attempts_app. simpl. lia. Qed.

(** The blocks of [validate] record what the role's validation records. *)
Lemma static_block_attempts (self : Validator) (file : string)
    (errs : list (string * exn)) (w : World) (r : role) :
  static_conf_file self = Some file ->
  attempts r (trace (snd (validate_static_block self errs w))) =
  attempts r [EvAttempt Static] + attempts r (trace w).
Proof.
  intros E. rewrite (static_block_eval self file errs w E).
  pose proof (validate_static_attempts self file w r E) as A.
  destruct (_validate_static self w) as [[u|e] w1]; simpl fst in *; simpl snd in *.
  - rewrite attempts_log_print. exact A.
  - destruct e; simpl snd; rewrite ?attempts_log_print; exact A.
Qed.

Lemma dynamic_block_attempts (self : Validator) (file : string)
    (errs : list (string * exn)) (w : World) (r : role) :
  dynamic_conf_file self = Some file ->
  attempts r (trace (snd (validate_dynamic_block self errs w))) =
  attempts r [EvAttempt Dynamic] + attempts r (trace w).
Proof.
  intros E. rewrite (dynamic_block_eval self file errs w E).
  pose proof (validate_dynamic_attempts self file w r E) as A.
  destruct (_validate_dynamic self w) as [[u|e] w1]; simpl fst in *; simpl snd in *.
  - rewrite attempts_log_print. exact A.
  - destruct e; simpl snd; rewrite ?attempts_log_print; exact A.
Qed.

(** [validate], one block after the other. *)
Lemma validate_eval (self : Validator) (w : World) :
  validate self w =
  match validate_static_block self [] w with
  | (Raise e, w1) => (Raise e, w1)
  | (Return errs1, w1) =>
      match validate_dynamic_block self errs1 w1 with
      | (Raise e, w2) => (Raise e, w2)
      | (Return [], w2) => (Return tt, w2)
      | (Return (_ :: _), w2) =>
          (Raise (ValidationError "Configuration validation failed"), w2)
      end
  end.
Proof.
  unfold validate, bind.
  destruct (validate_static_block self [] w) as [[errs1|e] w1]; [|reflexivity].
  destruct (validate_dynamic_block self errs1 w1) as [[[|x errs2]|e] w2];
    reflexivity.
Qed.

(** No role's validation raises the aggregate [ValidationError]. *)
Lemma matched_not_aggregate (file : string) (schema : document) (msg : string) :
  matched file schema <> Raise (ValidationError msg).
Proof.
  unfold matched. destruct (yaml_safe_load file) as [config|]; [|discriminate].
  destruct (jsonschema_validate config schema); discriminate.
Qed.

Lemma validate_static_not_aggregate (self : Validator) (file : string)
    (w : World) (msg : string) :
  static_conf_file self = Some file ->
  fst (_validate_static self w) <> Raise (ValidationError msg).
Proof.
  intros E. rewrite (validate_static_eval self file w E). unfold get_static_schema.
  destruct (get_schema _ _ _) as [[schema|e] w1] eqn:G; simpl.
  - apply matched_not_aggregate.
  - apply get_schema_raises_ValueError in G. intros [= ->]. discriminate.
Qed.

Lemma validate_dynamic_not_aggregate (self : Validator) (file : string)
    (w : World) (msg : string) :
  dynamic_conf_file self = Some file ->
  fst (_validate_dynamic self w) <> Raise (ValidationError msg).
Proof.
  intros E. rewrite (validate_dynamic_eval self file w E). unfold get_dynamic_schema.
  destruct (get_schema _ _ _) as [[schema|e] w1] eqn:G; simpl.
  - apply matched_not_aggregate.
  - apply get_schema_raises_ValueError in G. intros [= ->]. discriminate.
Qed.

(** C7. With both files given, a structural failure of the static role is
    collected and the dynamic role is still evaluated: whenever the static
    role passes or fails structurally, both roles are attempted (once each);
    if moreover the dynamic role passes or fails structurally, [validate]
    returns when both passed and otherwise raises the one aggregate
    [ValidationError]; and that aggregate error is raised only after both
    roles were attempted. *)
Theorem structural_failures_are_collected
    (self : Validator) (sfile dfile : string) (w : World)
    (Hs : static_conf_file self = Some sfile)
    (Hd : dynamic_conf_file self = Some dfile) :
  let r1 := fst (_validate_static self w) in
  let wmid := snd (validate_static_block self [] w) in
  let r2 := fst (_validate_dynamic self wmid) in
  let result := fst (validate self w) in
  let w' := snd (validate self w) in
  (passes r1 || structural r1 = true ->
     attempts Static (trace w') = S (attempts Static (trace w)) /\
     attempts Dynamic (trace w') = S (attempts Dynamic (trace w))) /\
  (passes r1 || structural r1 = true ->
   passes r2 || structural r2 = true ->
     result = if passes r1 && passes r2 then Return tt
              else Raise (ValidationError "Configuration validation failed")) /\
  (forall msg, result = Raise (ValidationError msg) ->
     attempts Static (trace w') = S (attempts Static (trace w)) /\
     attempts Dynamic (trace w') = S (attempts Dynamic (trace w))).
Proof.
  cbv zeta.
  assert (Hcount : forall errs1 w1 r w2,
            validate_static_block self [] w = (Return errs1, w1) ->
            snd (validate_dynamic_block self errs1 w1) = w2 ->
            attempts r (trace w2) =
            attempts r [EvAttempt Dynamic] + (attempts r [EvAttempt Static]
                                              + attempts r (trace w))).
  { intros errs1 w1 r w2 E1 <-.
    rewrite (dynamic_block_attempts self dfile errs1 w1 r Hd).
    pose proof (static_block_attempts self sfile [] w r Hs) as A.
    rewrite E1 in A. simpl snd in A. rewrite A. reflexivity. }
  pose proof (fun msg => validate_static_not_aggregate self sfile w msg Hs) as N1.
  rewrite validate_eval.
  pose proof (static_block_eval self sfile [] w Hs) as B1.
  destruct (_validate_static self w) as [[u1|e1] w1] eqn:V1; simpl fst in *.
  - (* the static role passes *)
    rewrite B1 in *. simpl snd.
    set (wmid := log (EvPrint (green_check +:+ " Static configuration is valid")) w1) in *.
    pose proof (fun msg => validate_dynamic_not_aggregate self dfile wmid msg Hd) as N2.
    pose proof (Hcount [] wmid Static _ eq_refl eq_refl) as CS.
    pose proof (Hcount [] wmid Dynamic _ eq_refl eq_refl) as CD.
    rewrite (dynamic_block_eval self dfile [] wmid Hd) in *.
    destruct (_validate_dynamic self wmid) as [[u2|e2] w2]; simpl fst in *.
    + simpl in *. repeat split; auto; try lia; discriminate.
    + destruct e2; simpl in *; repeat split; intros; auto; try lia;
        try discriminate; try (exfalso; eapply N2; eassumption);
        match goal with Hm : Raise _ = Raise _ |- _ =>
          exfalso; eapply N2; exact Hm end.
  - destruct e1; simpl in B1 |- *; rewrite B1 in *; simpl snd;
      try solve [exfalso; exact (N1 _ eq_refl)];
      try solve [repeat split; intros; try discriminate;
                 match goal with Hm : Raise _ = Raise _ |- _ =>
                   exfalso; eapply N1; exact Hm end].
    (* the static role fails structurally *)
    set (wmid := log (EvPrint ("   at: " +:+ error_path path))
                   (log (EvPrint (red_cross +:+ " Static configuration error: "
                                  +:+ message)) w1)) in *.
    pose proof (fun msg => validate_dynamic_not_aggregate self dfile wmid msg Hd) as N2.
    pose proof (Hcount _ wmid Static _ eq_refl eq_refl) as CS.
    pose proof (Hcount _ wmid Dynamic _ eq_refl eq_refl) as CD.
    rewrite (dynamic_block_eval self dfile _ wmid Hd) in *.
    destruct (_validate_dynamic self wmid) as [[u2|e2] w2]; simpl fst in *.
    + simpl in *. repeat split; auto; try lia; discriminate.
    + destruct e2; simpl in *; repeat split; intros; auto; try lia;
        try discriminate;
        match goal with Hm : Raise _ = Raise _ |- _ =>
          exfalso; eapply N2; exact Hm end.
Qed.

(** C3, as the code has it. With both files given, an acquisition error
    of [get_schema] leaves [validate] at once, whichever role it occurs in
    (only structural errors of the matcher are caught).  The static role
    comes first: when its schema cannot be acquired, [validate] raises that
    error and the dynamic role is not attempted; when the static block has
    completed and the dynamic schema cannot be acquired, [validate] raises
    that error after the static role was attempted. *)
Theorem acquisition_error_leaves_validate
    (self : Validator) (sfile dfile : string)
    (Hs : static_conf_file self = Some sfile)
    (Hd : dynamic_conf_file self = Some dfile) :
  (forall w e w1,
     get_static_schema (schema_downloader self) (offline_mode self)
                       (log (EvAttempt Static) w) = (Raise e, w1) ->
     validate self w = (Raise e, w1) /\
     attempts Dynamic (trace w1) = attempts Dynamic (trace w)) /\
  (forall w errs wmid e w2,
     validate_static_block self [] w = (Return errs, wmid) ->
     get_dynamic_schema (schema_downloader self) (offline_mode self)
                        (log (EvAttempt Dynamic) wmid) = (Raise e, w2) ->
     validate self w = (Raise e, w2) /\
     attempts Static (trace w2) = S (attempts Static (trace w))).
Proof.
  split.
  - intros w e w1 G.
    assert (V : _validate_static self w = (Raise e, w1))
      by (rewrite (validate_static_eval self sfile w Hs), G; reflexivity).
    pose proof (get_schema_raises_ValueError _ _ _ _ _ G) as Ve.
    pose proof (validate_static_attempts self sfile w Dynamic Hs) as A.
    rewrite V in A. simpl in A.
    rewrite validate_eval, (static_block_eval self sfile [] w Hs), V.
    split; [|exact A].
    destruct e; try reflexivity; discriminate.
  - intros w errs wmid e w2 B1 G.
    assert (V : _validate_dynamic self wmid = (Raise e, w2))
      by (rewrite (validate_dynamic_eval self dfile wmid Hd), G; reflexivity).
    pose proof (get_schema_raises_ValueError _ _ _ _ _ G) as Ve.
    pose proof (validate_dynamic_attempts self dfile wmid Static Hd) as A2.
    rewrite V in A2. simpl in A2.
    pose proof (static_block_attempts self sfile [] w Static Hs) as A1.
    rewrite B1 in A1. simpl in A1.
    rewrite validate_eval, B1, (dynamic_block_eval self dfile errs wmid Hd), V.
    split; [|lia].
    destruct e; try reflexivity; discriminate.
Qed.

End Properties.

(** ** Further properties of the schema provider *)

Section ProviderProperties.
Context `{Externals}.

Local Open Scope py_scope.

Lemma get_schema_offline_world (url : string) (w : World) :
  snd (get_schema url true w) = w.
Proof.
  rewrite get_schema_eval.
  destruct (fs w !! _get_cache_path url); [|reflexivity].
  rewrite orb_true_r. reflexivity.
Qed.

(** What a call of [get_schema] can do to the cache. *)
Lemma get_schema_fs_cases (url : string) (offline : bool) (w : World) :
  fs (snd (get_schema url offline w)) = fs w \/
  exists schema,
    fs (snd (get_schema url offline w)) =
    <[_get_cache_path url := mkFile (clock w) (json_dumps schema)]> (fs w).
Proof.
  rewrite get_schema_eval. unfold fetch_and_store.
  destruct (fs w !! _get_cache_path url);
    [destruct (is_fresh w (_get_cache_path url) || offline)|destruct offline];
    simpl; auto;
    destruct (fetched url (net w url)) as [d|e]; simpl; eauto.
Qed.

Lemma get_schema_keeps_others (url : string) (offline : bool) (w : World) (p : Path) :
  p <> _get_cache_path url ->
  fs (snd (get_schema url offline w)) !! p = fs w !! p.
Proof.
  intros Hp. destruct (get_schema_fs_cases url offline w) as [-> | [schema ->]];
    [reflexivity|]. apply lookup_insert_ne. congruence.
Qed.

Lemma get_schema_keeps_entries (url : string) (offline : bool) (w : World) (p : Path) :
  is_Some (fs w !! p) -> is_Some (fs (snd (get_schema url offline w)) !! p).
Proof.
  intros Hs. destruct (get_schema_fs_cases url offline w) as [-> | [schema ->]];
    [exact Hs|].
  destruct (decide (_get_cache_path url = p)) as [<- | Hne].
  - rewrite lookup_insert_eq. eauto.
  - rewrite lookup_insert_ne by assumption. exact Hs.
Qed.

(** The entry that a successful online fetch leaves in the cache. *)
Lemma entry_after_fetch (url : string) (w w1 : World) (schema : document) :
  is_fresh w (_get_cache_path url) = false ->
  get_schema url false w = (Return schema, w1) ->
  fs w1 !! _get_cache_path url = Some (mkFile (clock w) (json_dumps schema)) /\
  clock w1 = clock w.
Proof.
  intros F. rewrite get_schema_eval, F. unfold fetch_and_store. simpl.
  destruct (fetched url (net w url)) as [d|e];
    destruct (fs w !! _get_cache_path url); intros [= <- <-]; simpl;
    split; try reflexivity; apply lookup_insert_eq.
Qed.

(** X1. After an online call that had to fetch and succeeded, any call for
    the same identifier made less than 86400 seconds later, in either mode,
    while the entry is still there, is answered from the cache without a
    fetch or a write; it returns the fetched schema provided the JSON
    encoding of that schema decodes back to it. *)
Theorem second_call_within_ttl_is_served_from_cache
    (url : string) (offline : bool) (w w1 w2 : World) (schema : document)
    (Hstale : is_fresh w (_get_cache_path url) = false)
    (Hfetched : get_schema url false w = (Return schema, w1))
    (Hround : json_loads (json_dumps schema) = Some schema)
    (Hkept : fs w2 !! _get_cache_path url = fs w1 !! _get_cache_path url)
    (Hsoon : (clock w2 - clock w1 < 86400)%Q) :
  get_schema url offline w2 = (Return schema, w2).
Proof.
  destruct (entry_after_fetch url w w1 schema Hstale Hfetched) as [E C].
  rewrite E in Hkept.
  assert (F : is_fresh w2 (_get_cache_path url) = true).
  { apply (stamped_entry_freshness _ (json_dumps schema) w w2 Hkept).
    rewrite <- C. exact Hsoon. }
  rewrite get_schema_eval, Hkept, F. simpl. unfold parsed. rewrite Hround.
  reflexivity.
Qed.

(** X2. After an online call that had to fetch and succeeded, an offline
    call for the same identifier never fails for lack of a cache, however
    much later it is made: as long as the entry is still there it is
    answered from the cache, untouched world. *)
Theorem offline_call_after_online_fetch_succeeds
    (url : string) (w w1 w2 : World) (schema : document)
    (Hstale : is_fresh w (_get_cache_path url) = false)
    (Hfetched : get_schema url false w = (Return schema, w1))
    (Hround : json_loads (json_dumps schema) = Some schema)
    (Hkept : fs w2 !! _get_cache_path url = fs w1 !! _get_cache_path url) :
  get_schema url true w2 = (Return schema, w2).
Proof.
  destruct (entry_after_fetch url w w1 schema Hstale Hfetched) as [E _].
  rewrite E in Hkept.
  rewrite get_schema_eval, Hkept, orb_true_r. simpl. unfold parsed.
  rewrite Hround. reflexivity.
Qed.

End ProviderProperties.

(** ** Further properties of the validator *)

Section ValidatorProperties.
Context `{Externals}.

Local Open Scope py_scope.

Lemma static_block_skipped (self : Validator) (errs : list (string * exn)) (w : World) :
  static_conf_file self = None ->
  validate_static_block self errs w = (Return errs, w).
Proof. intros E. unfold validate_static_block. rewrite E. reflexivity. Qed.

Lemma dynamic_block_skipped (self : Validator) (errs : list (string * exn)) (w : World) :
  dynamic_conf_file self = None ->
  validate_dynamic_block self errs w = (Return errs, w).
Proof. intros E. unfold validate_dynamic_block. rewrite E. reflexivity. Qed.

Lemma validate_static_world (self : Validator) (file : string) (w : World) :
  static_conf_file self = Some file ->
  snd (_validate_static self w) =
  snd (get_schema (static_schema_url (schema_downloader self)) (offline_mode self)
         (log (EvAttempt Static) w)).
Proof.
  intros E. rewrite (validate_static_eval self file w E). unfold get_static_schema.
  destruct (get_schema _ _ _) as [[schema|e] w1]; reflexivity.
Qed.

Lemma validate_dynamic_world (self : Validator) (file : string) (w : World) :
  dynamic_conf_file self = Some file ->
  snd (_validate_dynamic self w) =
  snd (get_schema (dynamic_schema_url (schema_downloader self)) (offline_mode self)
         (log (EvAttempt Dynamic) w)).
Proof.
  intros E. rewrite (validate_dynamic_eval self file w E). unfold get_dynamic_schema.
  destruct (get_schema _ _ _) as [[schema|e] w1]; reflexivity.
Qed.

(** A relation between the worlds before and after that holds across
    attempts, prints and the role's [get_schema] holds across the block. *)
Section Rule.
Variable P : World -> World -> Prop.
Hypothesis P_refl : forall w, P w w.
Hypothesis P_trans : forall w1 w2 w3, P w1 w2 -> P w2 w3 -> P w1 w3.
Hypothesis P_attempt : forall r w, P w (log (EvAttempt r) w).
Hypothesis P_print : forall l w, P w (log (EvPrint l) w).

Lemma static_block_rule (self : Validator) (errs : list (string * exn)) (w : World) :
  (forall file w0, static_conf_file self = Some file ->
     P w0 (snd (get_schema (static_schema_url (schema_downloader self))
                  (offline_mode self) w0))) ->
  P w (snd (validate_static_block self errs w)).
Proof.
  intros G. destruct (static_conf_file self) as [file|] eqn:E.
  - rewrite (static_block_eval self file errs w E).
    pose proof (validate_static_world self file w E) as W.
    assert (P w (snd (_validate_static self w))) as Pw.
    { rewrite W. eapply P_trans; [apply (P_attempt Static)|]. apply (G file), eq_refl. }
    destruct (_validate_static self w) as [[u|e] w1]; simpl snd in *.
    + eapply P_trans; [exact Pw|apply P_print].
    + destruct e; simpl snd; try exact Pw.
      eapply P_trans; [exact Pw|]. eapply P_trans; apply P_print.
  - rewrite (static_block_skipped self errs w E). apply P_refl.
Qed.

Lemma dynamic_block_rule (self : Validator) (errs : list (string * exn)) (w : World) :
  (forall file w0, dynamic_conf_file self = Some file ->
     P w0 (snd (get_schema (dynamic_schema_url (schema_downloader self))
                  (offline_mode self) w0))) ->
  P w (snd (validate_dynamic_block self errs w)).
Proof.
  intros G. destruct (dynamic_conf_file self) as [file|] eqn:E.
  - rewrite (dynamic_block_eval self file errs w E).
    pose proof (validate_dynamic_world self file w E) as W.
    assert (P w (snd (_validate_dynamic self w))) as Pw.
    { rewrite W. eapply P_trans; [apply (P_attempt Dynamic)|]. apply (G file), eq_refl. }
    destruct (_validate_dynamic self w) as [[u|e] w1]; simpl snd in *.
    + eapply P_trans; [exact Pw|apply P_print].
    + destruct e; simpl snd; try exact Pw.
      eapply P_trans; [exact Pw|]. eapply P_trans; apply P_print.
  - rewrite (dynamic_block_skipped self errs w E). apply P_refl.
Qed.

Lemma validate_rule (self : Validator) (w : World) :
  (forall file w0, static_conf_file self = Some file ->
     P w0 (snd (get_schema (static_schema_url (schema_downloader self))
                  (offline_mode self) w0))) ->
  (forall file w0, dynamic_conf_file self = Some file ->
     P w0 (snd (get_schema (dynamic_schema_url (schema_downloader self))
                  (offline_mode self) w0))) ->
  P w (snd (validate self w)).
Proof.
  intros Gs Gd. rewrite validate_eval.
  pose proof (static_block_rule self [] w Gs) as P1.
  destruct (validate_static_block self [] w) as [[errs1|e] w1]; simpl snd in *;
    [|exact P1].
  pose proof (dynamic_block_rule self errs1 w1 Gd) as P2.
  destruct (validate_dynamic_block self errs1 w1) as [[[|x errs2]|e] w2];
    simpl snd in *; eapply P_trans; eassumption.
Qed.

End Rule.

(** X3. A validator in offline mode never downloads a schema and never
    changes the cache: after [validate], whatever its outcome, the cache
    holds what it held and [download_from_url] has not been called. *)
Theorem validate_offline_is_read_only (self : Validator) (w : World)
    (Hoffline : offline_mode self = true) :
  fs (snd (validate self w)) = fs w /\
  fetch_urls (trace (snd (validate self w))) = fetch_urls (trace w) /\
  clock (snd (validate self w)) = clock w.
Proof.
  apply (validate_rule
           (fun w1 w2 => fs w2 = fs w1 /\
                         fetch_urls (trace w2) = fetch_urls (trace w1) /\
                         clock w2 = clock w1)).
  - auto.
  - intros w1 w2 w3 (A1 & B1 & C1) (A2 & B2 & C2). repeat split; congruence.
  - intros r w0. simpl. repeat split.
    induction (trace w0) as [|ev t IH]; [reflexivity|]. destruct ev; simpl; congruence.
  - intros l w0. simpl. repeat split.
    induction (trace w0) as [|ev t IH]; [reflexivity|]. destruct ev; simpl; congruence.
  - intros file w0 _. rewrite Hoffline, get_schema_offline_world. auto.
  - intros file w0 _. rewrite Hoffline, get_schema_offline_world. auto.
Qed.

(** X4. [validate] changes the cache only at the locations of the schemas
    of the roles whose file was given: every other location keeps its entry,
    and no entry ever disappears. *)
Theorem validate_frame (self : Validator) (w : World) :
  let sloc := _get_cache_path (static_schema_url (schema_downloader self)) in
  let dloc := _get_cache_path (dynamic_schema_url (schema_downloader self)) in
  (forall p,
     (static_conf_file self = None \/ p <> sloc) ->
     (dynamic_conf_file self = None \/ p <> dloc) ->
     fs (snd (validate self w)) !! p = fs w !! p) /\
  (forall p, is_Some (fs w !! p) -> is_Some (fs (snd (validate self w)) !! p)).
Proof.
  cbv zeta.
  set (sloc := _get_cache_path (static_schema_url (schema_downloader self))).
  set (dloc := _get_cache_path (dynamic_schema_url (schema_downloader self))).
  apply (validate_rule
           (fun w1 w2 =>
              (forall p,
                 (static_conf_file self = None \/ p <> sloc) ->
                 (dynamic_conf_file self = None \/ p <> dloc) ->
                 fs w2 !! p = fs w1 !! p) /\
              (forall p, is_Some (fs w1 !! p) -> is_Some (fs w2 !! p)))).
  - auto.
  - intros w1 w2 w3 [A1 B1] [A2 B2]. split.
    + intros p Hs Hd. rewrite A2, A1; auto.
    + auto.
  - intros r w0. simpl. auto.
  - intros l w0. simpl. auto.
  - intros file w0 E. split.
    + intros p [Hn | Hp] _; [congruence|].
      apply get_schema_keeps_others, Hp.
    + intros p. apply get_schema_keeps_entries.
  - intros file w0 E. split.
    + intros p _ [Hn | Hp]; [congruence|].
      apply get_schema_keeps_others, Hp.
    + intros p. apply get_schema_keeps_entries.
Qed.

Lemma matched_exceptions (file : string) (schema : document) (e : exn) :
  matched file schema = Raise e ->
  (exists message path, e = JsonschemaValidationError message path) \/
  escapes_validate e = true.
Proof.
  unfold matched. destruct (yaml_safe_load file) as [config|].
  - destruct (jsonschema_validate config schema); intros [= <-]; eauto.
  - intros [= <-]. auto.
Qed.

Lemma is_ValueError_escapes (e : exn) :
  is_ValueError e = true -> escapes_validate e = true.
Proof. destruct e; simpl; congruence. Qed.

Lemma validate_static_exceptions (self : Validator) (w : World) (e : exn) :
  fst (_validate_static self w) = Raise e ->
  (exists message path, e = JsonschemaValidationError message path) \/
  escapes_validate e = true.
Proof.
  destruct (static_conf_file self) as [file|] eqn:E.
  - rewrite (validate_static_eval self file w E). unfold get_static_schema.
    destruct (get_schema _ _ _) as [[schema|e0] w1] eqn:G; simpl.
    + apply matched_exceptions.
    + intros [= <-]. right.
      apply is_ValueError_escapes, (get_schema_raises_ValueError _ _ _ _ _ G).
  - unfold _validate_static. rewrite E. discriminate.
Qed.

Lemma validate_dynamic_exceptions (self : Validator) (w : World) (e : exn) :
  fst (_validate_dynamic self w) = Raise e ->
  (exists message path, e = JsonschemaValidationError message path) \/
  escapes_validate e = true.
Proof.
  destruct (dynamic_conf_file self) as [file|] eqn:E.
  - rewrite (validate_dynamic_eval self file w E). unfold get_dynamic_schema.
    destruct (get_schema _ _ _) as [[schema|e0] w1] eqn:G; simpl.
    + apply matched_exceptions.
    + intros [= <-]. right.
      apply is_ValueError_escapes, (get_schema_raises_ValueError _ _ _ _ _ G).
  - unfold _validate_dynamic. rewrite E. discriminate.
Qed.

Lemma static_block_exceptions (self : Validator) (errs : list (string * exn))
    (w : World) (e : exn) :
  fst (validate_static_block self errs w) = Raise e -> escapes_validate e = true.
Proof.
  destruct (static_conf_file self) as [file|] eqn:E.
  - rewrite (static_block_eval self file errs w E).
    pose proof (validate_static_exceptions self w) as X.
    destruct (_validate_static self w) as [[u|e0] w1]; simpl in *; [discriminate|].
    destruct (X e0 eq_refl) as [(m & p & ->) | Hesc]; [discriminate|].
    destruct e0; simpl in *; try discriminate; intros [= <-]; reflexivity.
  - rewrite (static_block_skipped self errs w E). discriminate.
Qed.

Lemma dynamic_block_exceptions (self : Validator) (errs : list (string * exn))
    (w : World) (e : exn) :
  fst (validate_dynamic_block self errs w) = Raise e -> escapes_validate e = true.
Proof.
  destruct (dynamic_conf_file self) as [file|] eqn:E.
  - rewrite (dynamic_block_eval self file errs w E).
    pose proof (validate_dynamic_exceptions self w) as X.
    destruct (_validate_dynamic self w) as [[u|e0] w1]; simpl in *; [discriminate|].
    destruct (X e0 eq_refl) as [(m & p & ->) | Hesc]; [discriminate|].
    destruct e0; simpl in *; try discriminate; intros [= <-]; reflexivity.
  - rewrite (dynamic_block_skipped self errs w E). discriminate.
Qed.

Lemma static_block_not_aggregate (self : Validator) (errs : list (string * exn))
    (w : World) (msg : string) :
  fst (validate_static_block self errs w) <> Raise (ValidationError msg).
Proof.
  destruct (static_conf_file self) as [file|] eqn:E.
  - rewrite (static_block_eval self file errs w E).
    pose proof (validate_static_not_aggregate self file w msg E) as N.
    destruct (_validate_static self w) as [[u|e] w1]; simpl in *; [discriminate|].
    destruct e; simpl; congruence.
  - rewrite (static_block_skipped self errs w E). discriminate.
Qed.

Lemma dynamic_block_not_aggregate (self : Validator) (errs : list (string * exn))
    (w : World) (msg : string) :
  fst (validate_dynamic_block self errs w) <> Raise (ValidationError msg).
Proof.
  destruct (dynamic_conf_file self) as [file|] eqn:E.
  - rewrite (dynamic_block_eval self file errs w E).
    pose proof (validate_dynamic_not_aggregate self file w msg E) as N.
    destruct (_validate_dynamic self w) as [[u|e] w1]; simpl in *; [discriminate|].
    destruct e; simpl; congruence.
  - rewrite (dynamic_block_skipped self errs w E). discriminate.
Qed.

Lemma validate_escapes (self : Validator) (w : World) (e : exn) :
  fst (validate self w) = Raise e -> escapes_validate e = true.
Proof.
  rewrite validate_eval.
  pose proof (static_block_exceptions self [] w) as X1.
  destruct (validate_static_block self [] w) as [[errs1|e1] w1]; simpl in *.
  - pose proof (dynamic_block_exceptions self errs1 w1) as X2.
    destruct (validate_dynamic_block self errs1 w1) as [[[|x errs2]|e2] w2];
      simpl in *; [discriminate| |intros [= <-]; apply X2; reflexivity].
    intros [= <-]. reflexivity.
  - intros [= <-]. apply X1. reflexivity.
Qed.

Lemma validate_raised (self : Validator) (w w' : World) (e : exn) :
  validate self w = (Raise e, w') ->
  escapes_validate e = true /\
  (forall msg, e = ValidationError msg ->
     msg = "Configuration validation failed"%string).
Proof.
  intros Hraises. split.
  - apply (validate_escapes self w). rewrite Hraises. reflexivity.
  - intros msg ->. revert Hraises. rewrite validate_eval.
    pose proof (static_block_not_aggregate self [] w msg) as N1.
    destruct (validate_static_block self [] w) as [[errs1|e1] w1]; simpl in N1.
    + pose proof (dynamic_block_not_aggregate self errs1 w1 msg) as N2.
      destruct (validate_dynamic_block self errs1 w1) as [[[|x errs2]|e2] w2];
        simpl in N2; intros [= E]; subst; congruence.
    + intros [= E]. congruence.
Qed.


Lemma fetch_urls_app (t1 t2 : list event) :
  fetch_urls (t1 ++ t2) = fetch_urls t1 ++ fetch_urls t2.
Proof.
  induction t1 as [|ev t1 IH]; [reflexivity|].
  destruct ev; simpl; rewrite IH; reflexivity.
Qed.

(** What one call of [get_schema], after the attempt of role [r] is
    recorded, adds to the trace. *)
Lemma attempt_then_get_schema_trace (r : role) (url : string) (offline : bool) (w : World) :
  exists (k : list event) (fetch : bool),
    trace (snd (get_schema url offline (log (EvAttempt r) w))) = trace w ++ k /\
    fetch_urls k = (if fetch then [url] else []) /\
    attempts r k = 1 /\
    (fetch = true -> offline = false).
Proof.
  destruct offline.
  - rewrite get_schema_offline_world. exists [EvAttempt r], false.
    destruct r; simpl; auto.
  - destruct (get_schema_trace url false (log (EvAttempt r) w)) as [-> | ->].
    + exists [EvAttempt r], false. destruct r; simpl; auto.
    + exists [EvAttempt r; EvFetch url], true. simpl. rewrite <- app_assoc.
      destruct r; simpl; auto.
Qed.

Lemma static_block_trace (self : Validator) (errs : list (string * exn)) (w : World) :
  exists (k : list event) (fetch : bool),
    trace (snd (validate_static_block self errs w)) = trace w ++ k /\
    fetch_urls k =
      (if fetch then [static_schema_url (schema_downloader self)] else []) /\
    (fetch = true -> static_conf_file self <> None /\ offline_mode self = false).
Proof.
  destruct (static_conf_file self) as [file|] eqn:E.
  - rewrite (static_block_eval self file errs w E).
    pose proof (validate_static_world self file w E) as W.
    destruct (attempt_then_get_schema_trace Static
                (static_schema_url (schema_downloader self))
                (offline_mode self) w) as (k & fetch & T & F & _ & O).
    rewrite <- W in T.
    destruct (_validate_static self w) as [[u|e] w1]; simpl snd in *.
    + exists (k ++ [EvPrint (green_check +:+ " Static configuration is valid")]), fetch.
      simpl. rewrite T, <- app_assoc, fetch_urls_app, F. simpl.
      rewrite app_nil_r. repeat split; auto; discriminate.
    + destruct e; simpl snd;
        try (exists k, fetch; repeat split; auto; discriminate).
      exists (k ++ [EvPrint (red_cross +:+ " Static configuration error: " +:+ message);
                    EvPrint ("   at: " +:+ error_path path)]), fetch.
      simpl. rewrite T, <- !app_assoc, fetch_urls_app, F. simpl.
      rewrite app_nil_r. repeat split; auto; discriminate.
  - rewrite (static_block_skipped self errs w E). exists [], false. simpl.
    rewrite app_nil_r. repeat split; auto; discriminate.
Qed.

Lemma dynamic_block_trace (self : Validator) (errs : list (string * exn)) (w : World) :
  exists (k : list event) (fetch : bool),
    trace (snd (validate_dynamic_block self errs w)) = trace w ++ k /\
    fetch_urls k =
      (if fetch then [dynamic_schema_url (schema_downloader self)] else []) /\
    (fetch = true -> dynamic_conf_file self <> None /\ offline_mode self = false).
Proof.
  destruct (dynamic_conf_file self) as [file|] eqn:E.
  - rewrite (dynamic_block_eval self file errs w E).
    pose proof (validate_dynamic_world self file w E) as W.
    destruct (attempt_then_get_schema_trace Dynamic
                (dynamic_schema_url (schema_downloader self))
                (offline_mode self) w) as (k & fetch & T & F & _ & O).
    rewrite <- W in T.
    destruct (_validate_dynamic self w) as [[u|e] w1]; simpl snd in *.
    + exists (k ++ [EvPrint (green_check +:+ " Dynamic configuration is valid")]), fetch.
      simpl. rewrite T, <- app_assoc, fetch_urls_app, F. simpl.
      rewrite app_nil_r. repeat split; auto; discriminate.
    + destruct e; simpl snd;
        try (exists k, fetch; repeat split; auto; discriminate).
      exists (k ++ [EvPrint (red_cross +:+ " Dynamic configuration error: " +:+ message);
                    EvPrint ("   at: " +:+ error_path path)]), fetch.
      simpl. rewrite T, <- !app_assoc, fetch_urls_app, F. simpl.
      rewrite app_nil_r. repeat split; auto; discriminate.
  - rewrite (dynamic_block_skipped self errs w E). exists [], false. simpl.
    rewrite app_nil_r. repeat split; auto; discriminate.
Qed.

(** X6. During [validate], [download_from_url] is called at most once
    for each schema URL, for the static one before the dynamic one, and
    only when the file of that role was given and the validator is online. *)
Theorem validate_requests_each_schema_at_most_once (self : Validator) (w : World) :
  exists (k : list event) (fetch_static fetch_dynamic : bool),
    trace (snd (validate self w)) = trace w ++ k /\
    fetch_urls k =
      (if fetch_static then [static_schema_url (schema_downloader self)] else []) ++
      (if fetch_dynamic then [dynamic_schema_url (schema_downloader self)] else []) /\
    (fetch_static = true ->
       static_conf_file self <> None /\ offline_mode self = false) /\
    (fetch_dynamic = true ->
       dynamic_conf_file self <> None /\ offline_mode self = false).
Proof.
  rewrite validate_eval.
  destruct (static_block_trace self [] w) as (k1 & f1 & T1 & F1 & O1).
  destruct (validate_static_block self [] w) as [[errs1|e1] w1]; simpl snd in *.
  - destruct (dynamic_block_trace self errs1 w1) as (k2 & f2 & T2 & F2 & O2).
    exists (k1 ++ k2), f1, f2.
    assert (T : trace (snd (validate_dynamic_block self errs1 w1)) = trace w ++ k1 ++ k2)
      by (rewrite T2, T1, <- app_assoc; reflexivity).
    rewrite fetch_urls_app, F1, F2.
    destruct (validate_dynamic_block self errs1 w1) as [[[|x errs2]|e2] w2];
      simpl snd in *; auto.
  - exists k1, f1, false. rewrite F1, app_nil_r.
    split; [exact T1|]. split; [reflexivity|]. split; [exact O1|done].
Qed.

(** X7. With only the dynamic file given, the static role is never
    attempted, and the outcome of [validate] is that of the dynamic role:
    it returns exactly when that role's validation returns, and raises the
    aggregate [ValidationError] exactly when that role fails structurally. *)
Theorem validate_only_dynamic (self : Validator) (file : string) (w : World)
    (Hstatic : static_conf_file self = None)
    (Hdynamic : dynamic_conf_file self = Some file) :
  attempts Static (trace (snd (validate self w))) = attempts Static (trace w) /\
  (fst (validate self w) = Return tt <->
     passes (fst (_validate_dynamic self w)) = true) /\
  (fst (validate self w) = Raise (ValidationError "Configuration validation failed") <->
     structural (fst (_validate_dynamic self w)) = true).
Proof.
  pose proof (dynamic_block_attempts self file [] w Static Hdynamic) as A.
  pose proof (validate_dynamic_not_aggregate self file w
                "Configuration validation failed" Hdynamic) as N.
  rewrite validate_eval, (static_block_skipped self [] w Hstatic).
  rewrite (dynamic_block_eval self file [] w Hdynamic) in *.
  destruct (_validate_dynamic self w) as [[u|e] w1]; simpl in *.
  - repeat split; auto; try discriminate; destruct u; reflexivity.
  - destruct e; simpl in *; repeat split; auto; try discriminate; congruence.
Qed.

(** X8. With only the static file given, the dynamic role is never
    attempted, and the outcome of [validate] is that of the static role. *)
Theorem validate_only_static (self : Validator) (file : string) (w : World)
    (Hstatic : static_conf_file self = Some file)
    (Hdynamic : dynamic_conf_file self = None) :
  attempts Dynamic (trace (snd (validate self w))) = attempts Dynamic (trace w) /\
  (fst (validate self w) = Return tt <->
     passes (fst (_validate_static self w)) = true) /\
  (fst (validate self w) = Raise (ValidationError "Configuration validation failed") <->
     structural (fst (_validate_static self w)) = true).
Proof.
  pose proof (static_block_attempts self file [] w Dynamic Hstatic) as A.
  pose proof (validate_static_not_aggregate self file w
                "Configuration validation failed" Hstatic) as N.
  rewrite validate_eval.
  rewrite (static_block_eval self file [] w Hstatic) in *.
  destruct (_validate_static self w) as [[u|e] w1]; simpl in *.
  - rewrite (dynamic_block_skipped self _ _ Hdynamic). simpl.
    repeat split; auto; try discriminate; destruct u; reflexivity.
  - destruct e; simpl in *;
      rewrite ?(dynamic_block_skipped self _ _ Hdynamic); simpl;
      repeat split; auto; try discriminate; congruence.
Qed.

Lemma trace_extension_attempts (r : role) (t k : list event) :
  attempts r t <= attempts r (t ++ k).
Proof. rewrite attempts_app. lia. Qed.

Lemma validate_attempts_a_role (self : Validator) (w : World) :
  static_conf_file self <> None \/ dynamic_conf_file self <> None ->
  attempts Static (trace w) + attempts Dynamic (trace w) <
  attempts Static (trace (snd (validate self w))) +
  attempts Dynamic (trace (snd (validate self w))).
Proof.
  intros Hfile. rewrite validate_eval.
  destruct (static_conf_file self) as [sfile|] eqn:Es.
  - pose proof (static_block_attempts self sfile [] w Static Es) as AS.
    pose proof (static_block_attempts self sfile [] w Dynamic Es) as AD.
    simpl in AS, AD.
    destruct (validate_static_block self [] w) as [[errs1|e1] w1]; simpl snd in *;
      [|lia].
    destruct (dynamic_block_trace self errs1 w1) as (k & f & T & _).
    pose proof (trace_extension_attempts Static (trace w1) k) as MS.
    pose proof (trace_extension_attempts Dynamic (trace w1) k) as MD.
    rewrite <- T in MS, MD.
    destruct (validate_dynamic_block self errs1 w1) as [[[|x errs2]|e2] w2];
      simpl snd in *; lia.
  - destruct (dynamic_conf_file self) as [dfile|] eqn:Ed;
      [|destruct Hfile; congruence].
    rewrite (static_block_skipped self [] w Es).
    pose proof (dynamic_block_attempts self dfile [] w Static Ed) as AS.
    pose proof (dynamic_block_attempts self dfile [] w Dynamic Ed) as AD.
    simpl in AS, AD.
    destruct (validate_dynamic_block self [] w) as [[[|x errs2]|e2] w2];
      simpl snd in *; lia.
Qed.

(** X9. The constructor refuses to build a validator without any file
    (it raises [ValueError]); with at least one file it returns a validator
    that carries the files and the flag it was given and the two URLs of
    [settings], and whose [validate] attempts at least one role in every
    world. *)
Theorem validator_init_needs_a_file
    (static_conf dynamic_conf : option string) (offline : bool) :
  match Validator_init static_conf dynamic_conf offline with
  | Raise e =>
      static_conf = None /\ dynamic_conf = None /\
      e = ValueError "User should pass either static config file or dynamic config file"
  | Return self =>
      (static_conf <> None \/ dynamic_conf <> None) /\
      self = mkValidator static_conf dynamic_conf offline
               (mkSchemaDownloader settings.STATIC_CONFS_SCHEMA_URL
                                   settings.DYNAMIC_CONFS_SCHEMA_URL) /\
      forall w,
        attempts Static (trace w) + attempts Dynamic (trace w) <
        attempts Static (trace (snd (validate self w))) +
        attempts Dynamic (trace (snd (validate self w)))
  end.
Proof.
  destruct static_conf as [sfile|], dynamic_conf as [dfile|]; simpl.
  1-3: split; [first [left; discriminate | right; discriminate]|];
       (split; [reflexivity|]);
       intros w; apply validate_attempts_a_role; simpl;
       first [left; discriminate | right; discriminate].
  auto.
Qed.

End ValidatorProperties.

(** ** Properties of the command line *)

Section EntryPointProperties.
Context `{Externals}.

Import EntryPoint.

(** The validator that [validate_traefik] builds from its arguments. *)
Lemma validate_traefik_eval (package_version : option string) (args : Args)
    (w : World) :
  version args = false ->
  static_config args <> None \/ dynamic_config args <> None ->
  validate_traefik package_version args w =
  match validate (mkValidator (static_config args) (dynamic_config args)
                    (offline args) SchemaDownloader_init) w with
  | (Return _, w') =>
      (Returns, [if json args then JsonResult true MsgValid else AllValid], w')
  | (Raise e, w') => (SysExit 1, handler (json args) e, w')
  end.
Proof.
  intros Hv Hfile. unfold validate_traefik, Validator_init. rewrite Hv.
  destruct (static_config args) as [sfile|], (dynamic_config args) as [dfile|];
    simpl; try reflexivity.
  destruct Hfile; congruence.
Qed.


(** X11. Without [--version] and with at least one file,
    [validate_traefik] itself prints exactly one line (a JSON object under
    [--json]), and its framing follows the kind of failure: the success
    line goes with returning; the plain failure line is printed only for
    the aggregate [ValidationError] of [validate]; the "Error:" line only
    for instances of [ValueError] (failed download, offline without cache,
    undecodable schema); and the "Unexpected error:" line never for one of
    those, nor for the matcher's [ValidationError], which never reaches the
    command line. *)
Theorem output_framing (package_version : option string) (args : Args) (w : World)
    (Hversion : version args = false)
    (Hfile : static_config args <> None \/ dynamic_config args <> None) :
  let run := validate_traefik package_version args w in
  match snd (fst run) with
  | [AllValid] => json args = false /\ fst (fst run) = Returns
  | [JsonResult true MsgValid] => json args = true /\ fst (fst run) = Returns
  | [Failed e] =>
      json args = false /\ fst (fst run) = SysExit 1 /\
      e = ValidationError "Configuration validation failed"
  | [ErrorLine e] =>
      json args = false /\ fst (fst run) = SysExit 1 /\ is_ValueError e = true
  | [Unexpected e] =>
      json args = false /\ fst (fst run) = SysExit 1 /\
      is_ValueError e = false /\
      (forall msg, e <> ValidationError msg) /\
      (forall message path, e <> JsonschemaValidationError message path)
  | [JsonResult false (MsgOf e)] =>
      json args = true /\ fst (fst run) = SysExit 1 /\
      (e = ValidationError "Configuration validation failed" \/
       is_ValueError e = true)
  | [JsonResult false (MsgUnexpected e)] =>
      json args = true /\ fst (fst run) = SysExit 1 /\
      is_ValueError e = false /\
      (forall msg, e <> ValidationError msg) /\
      (forall message path, e <> JsonschemaValidationError message path)
  | _ => False
  end.
Proof.
  cbv zeta. rewrite (validate_traefik_eval package_version args w Hversion Hfile).
  destruct (validate _ w) as [[u|e] w'] eqn:V; simpl.
  - destruct (json args); auto.
  - destruct (validate_raised _ _ _ _ V) as [Hesc Hagg].
    destruct e; simpl in Hesc; try discriminate; simpl;
      try rewrite (Hagg _ eq_refl);
      destruct (json args); repeat split; auto; discriminate.
Qed.

End EntryPointProperties.

(** ** The properties on concrete worlds *)

(** The four rows of the policy, on the static schema's identifier. *)
Example scenario_fresh_cache_serves_entry :
  @get_schema Demo.externals settings.STATIC_CONFS_SCHEMA_URL false
     (Demo.w_fresh Demo.net_down "{ }")
  = (Return "{ }"%string, Demo.w_fresh Demo.net_down "{ }").
Proof. vm_compute. reflexivity. Qed.

Example scenario_offline_serves_stale_entry :
  @get_schema Demo.externals settings.STATIC_CONFS_SCHEMA_URL true
     (Demo.w_stale Demo.net_up "{ }")
  = (Return "{ }"%string, Demo.w_stale Demo.net_up "{ }").
Proof. vm_compute. reflexivity. Qed.

Example scenario_offline_without_entry_fails :
  @get_schema Demo.externals settings.STATIC_CONFS_SCHEMA_URL true
     (Demo.w_empty Demo.net_up)
  = (Raise (ValueError
       "No cached schema available for https://json.schemastore.org/traefik-v3.json and offline mode is enabled. Run without --offline first to download schemas."),
     Demo.w_empty Demo.net_up).
Proof. vm_compute. reflexivity. Qed.

Example scenario_online_stale_entry_is_refreshed :
  fst (@get_schema Demo.externals settings.STATIC_CONFS_SCHEMA_URL false
         (Demo.w_stale Demo.net_up "{ }")) = Return "{}"%string /\
  trace (snd (@get_schema Demo.externals settings.STATIC_CONFS_SCHEMA_URL false
                (Demo.w_stale Demo.net_up "{ }")))
    = [EvFetch settings.STATIC_CONFS_SCHEMA_URL] /\
  fs (snd (@get_schema Demo.externals settings.STATIC_CONFS_SCHEMA_URL false
             (Demo.w_stale Demo.net_up "{ }"))) !! Demo.static_loc
    = Some (mkFile 1000000 "{}").
Proof. vm_compute. repeat split; reflexivity. Qed.

Example scenario_download_not_found :
  fst (@download_from_url Demo.externals settings.DYNAMIC_CONFS_SCHEMA_URL
         (Demo.w_empty Demo.net_404))
  = Raise (ValueError
      "Failed to download schema from https://json.schemastore.org/traefik-v3-file-provider.json: HTTP Error 404: Not Found").
Proof. vm_compute. reflexivity. Qed.

(** Two distinct identifiers with the same MD5, hence the same location:
    the locations of distinct identifiers differ only as far as MD5 does. *)
Example distinct_identifiers_same_location :
  "TEXTCOLLBYfGiJUETHQ4hAcKSMd5zYpgqf1YRDhkmxHkhPWptrkoyz28wnI9V0aHeAuaKnak"%string
  <> "TEXTCOLLBYfGiJUETHQ4hEcKSMd5zYpgqf1YRDhkmxHkhPWptrkoyz28wnI9V0aHeAuaKnak"%string /\
  @_get_cache_path Demo.externals
    "TEXTCOLLBYfGiJUETHQ4hAcKSMd5zYpgqf1YRDhkmxHkhPWptrkoyz28wnI9V0aHeAuaKnak"
  = @_get_cache_path Demo.externals
    "TEXTCOLLBYfGiJUETHQ4hEcKSMd5zYpgqf1YRDhkmxHkhPWptrkoyz28wnI9V0aHeAuaKnak".
Proof. split; [discriminate|]. vm_compute. reflexivity. Qed.

(** The third end-to-end scenario of the specification: an invalid static
    file and a valid dynamic file, online with an empty cache. *)
Example scenario_invalid_static_valid_dynamic :
  fst (@validate Demo.externals (Demo.both_files false) (Demo.w_empty Demo.net_up))
    = Raise (ValidationError "Configuration validation failed") /\
  trace (snd (@validate Demo.externals (Demo.both_files false)
                (Demo.w_empty Demo.net_up)))
    = [EvAttempt Static;
       EvFetch settings.STATIC_CONFS_SCHEMA_URL;
       EvPrint (red_cross +:+
                " Static configuration error: 'rule' is a required property");
       EvPrint "   at: http → routers → r1";
       EvAttempt Dynamic;
       EvFetch settings.DYNAMIC_CONFS_SCHEMA_URL;
       EvPrint (green_check +:+ " Dynamic configuration is valid")].
Proof. vm_compute. split; reflexivity. Qed.

(** C5 on a stale entry with the network down: the download error comes
    out, the stale document does not. *)
Lemma get_schema_propagates_fetch_failure_witness :
  is_fresh (Demo.w_stale Demo.net_down "{ }") Demo.static_loc = false /\
  @get_schema Demo.externals settings.STATIC_CONFS_SCHEMA_URL false
     (Demo.w_stale Demo.net_down "{ }")
  = (Raise (ValueError
       "Failed to download schema from https://json.schemastore.org/traefik-v3.json: <urlopen error [Errno -2] Name or service not known>"),
     log (EvFetch settings.STATIC_CONFS_SCHEMA_URL)
         (Demo.w_stale Demo.net_down "{ }")).
Proof.
  split; [vm_compute; reflexivity|].
  apply (@get_schema_propagates_fetch_failure Demo.externals
           settings.STATIC_CONFS_SCHEMA_URL
           (Demo.w_stale Demo.net_down "{ }")).
  - vm_compute. reflexivity.
  - vm_compute. reflexivity.
Defined.

(** C6 on a fresh entry that does not decode, online. *)
Lemma undecodable_entry_is_surfaced_witness :
  @get_schema Demo.externals settings.STATIC_CONFS_SCHEMA_URL false
     (Demo.w_fresh Demo.net_up "garbage")
  = (Raise (JSONDecodeError "garbage"), Demo.w_fresh Demo.net_up "garbage").
Proof.
  apply (proj1 (@undecodable_entry_is_surfaced Demo.externals
                  settings.STATIC_CONFS_SCHEMA_URL false
                  (Demo.w_fresh Demo.net_up "garbage")
                  (mkFile 999000 "garbage")
                  ltac:(vm_compute; reflexivity)
                  ltac:(vm_compute; reflexivity))).
  vm_compute. reflexivity.
Defined.

(** C6 as stated fails: online, a fresh entry that does not decode is not
    handled like an absent entry.  Nothing is fetched and the decoder's
    error is raised, although the same call without the entry fetches and
    returns the schema. *)
Lemma undecodable_fresh_entry_is_not_refetched :
  fs (Demo.w_fresh Demo.net_up "garbage") !! Demo.static_loc
    = Some (mkFile 999000 "garbage") /\
  @json_loads Demo.externals "garbage" = None /\
  @get_schema Demo.externals settings.STATIC_CONFS_SCHEMA_URL false
     (Demo.w_fresh Demo.net_up "garbage")
    = (Raise (JSONDecodeError "garbage"), Demo.w_fresh Demo.net_up "garbage") /\
  fetches (trace (snd (@get_schema Demo.externals
                         settings.STATIC_CONFS_SCHEMA_URL false
                         (Demo.w_fresh Demo.net_up "garbage")))) = 0 /\
  fst (@get_schema Demo.externals settings.STATIC_CONFS_SCHEMA_URL false
         (Demo.w_empty Demo.net_up)) = Return "{}"%string /\
  fetches (trace (snd (@get_schema Demo.externals
                         settings.STATIC_CONFS_SCHEMA_URL false
                         (Demo.w_empty Demo.net_up)))) = 1.
Proof. vm_compute. repeat split; reflexivity. Qed.



(** C3 as stated fails: offline with an empty cache and both files given,
    the static schema cannot be acquired, [validate] raises that error and
    the dynamic role is never attempted. *)
Lemma static_acquisition_error_skips_dynamic :
  fst (@get_static_schema Demo.externals SchemaDownloader_init true
         (log (EvAttempt Static) (Demo.w_empty Demo.net_up)))
    = Raise (@offline_error settings.STATIC_CONFS_SCHEMA_URL) /\
  fst (@validate Demo.externals (Demo.both_files true) (Demo.w_empty Demo.net_up))
    = Raise (@offline_error settings.STATIC_CONFS_SCHEMA_URL) /\
  trace (snd (@validate Demo.externals (Demo.both_files true)
                (Demo.w_empty Demo.net_up))) = [EvAttempt Static] /\
  attempts Dynamic
    (trace (snd (@validate Demo.externals (Demo.both_files true)
                   (Demo.w_empty Demo.net_up)))) = 0.
Proof. vm_compute. repeat split; reflexivity. Qed.

(** C3 on the same input, through the theorem. *)
Lemma acquisition_error_leaves_validate_witness :
  @validate Demo.externals (Demo.both_files true) (Demo.w_empty Demo.net_up)
  = (Raise (@offline_error settings.STATIC_CONFS_SCHEMA_URL),
     log (EvAttempt Static) (Demo.w_empty Demo.net_up)).
Proof.
  apply (proj1 (@acquisition_error_leaves_validate Demo.externals
                  (Demo.both_files true)
                  "entryPoints: {}"
                  "http: {routers: {r1: {rule: Host(`test.com`)}}}"
                  eq_refl eq_refl)).
  vm_compute. reflexivity.
Defined.

(** C7 on an invalid static file and a valid dynamic file, online: both
    roles are attempted and the aggregate error is raised. *)
Lemma structural_failures_are_collected_witness :
  fst (@validate Demo.externals (Demo.both_files false) (Demo.w_empty Demo.net_up))
    = Raise (ValidationError "Configuration validation failed") /\
  attempts Static
    (trace (snd (@validate Demo.externals (Demo.both_files false)
                   (Demo.w_empty Demo.net_up)))) = 1 /\
  attempts Dynamic
    (trace (snd (@validate Demo.externals (Demo.both_files false)
                   (Demo.w_empty Demo.net_up)))) = 1.
Proof.
  destruct (@structural_failures_are_collected Demo.externals
              (Demo.both_files false)
              "entryPoints: {}"
              "http: {routers: {r1: {rule: Host(`test.com`)}}}"
              (Demo.w_empty Demo.net_up) eq_refl eq_refl) as (Hboth & Hresult & _).
  split.
  - apply Hresult; vm_compute; reflexivity.
  - apply Hboth. vm_compute. reflexivity.
Defined.

(** ** The further properties on concrete worlds *)

(** X1 one hour after the refresh of a stale entry, online. *)
Lemma second_call_within_ttl_is_served_from_cache_witness :
  @get_schema Demo.externals settings.STATIC_CONFS_SCHEMA_URL false
     Scenario.w_hour_later
  = (Return "{}"%string, Scenario.w_hour_later).
Proof.
  apply (@second_call_within_ttl_is_served_from_cache Demo.externals
           settings.STATIC_CONFS_SCHEMA_URL false
           (Demo.w_stale Demo.net_up "{ }") Scenario.w_after_fetch
           Scenario.w_hour_later "{}"%string).
  - vm_compute. reflexivity.
  - vm_compute. reflexivity.
  - vm_compute. reflexivity.
  - vm_compute. reflexivity.
  - vm_compute. reflexivity.
Defined.

(** X2 ten days after the refresh, offline. *)
Lemma offline_call_after_online_fetch_succeeds_witness :
  @get_schema Demo.externals settings.STATIC_CONFS_SCHEMA_URL true
     Scenario.w_ten_days_later
  = (Return "{}"%string, Scenario.w_ten_days_later).
Proof.
  apply (@offline_call_after_online_fetch_succeeds Demo.externals
           settings.STATIC_CONFS_SCHEMA_URL
           (Demo.w_stale Demo.net_up "{ }") Scenario.w_after_fetch
           Scenario.w_ten_days_later "{}"%string).
  - vm_compute. reflexivity.
  - vm_compute. reflexivity.
  - vm_compute. reflexivity.
  - vm_compute. reflexivity.
Defined.

(** X3 on both files, offline, with a stale static entry. *)
Lemma validate_offline_is_read_only_witness :
  fs (snd (@validate Demo.externals (Demo.both_files true)
             (Demo.w_stale Demo.net_up "{ }")))
    = fs (Demo.w_stale Demo.net_up "{ }") /\
  fetch_urls (trace (snd (@validate Demo.externals (Demo.both_files true)
                            (Demo.w_stale Demo.net_up "{ }")))) = [].
Proof.
  destruct (@validate_offline_is_read_only Demo.externals (Demo.both_files true)
              (Demo.w_stale Demo.net_up "{ }") eq_refl) as (Hfs & Hurls & _).
  split; [exact Hfs|exact Hurls].
Defined.


(** X7 on a valid dynamic file, online with an empty cache. *)
Lemma validate_only_dynamic_witness :
  attempts Static
    (trace (snd (@validate Demo.externals (Scenario.only_dynamic false)
                   (Demo.w_empty Demo.net_up)))) = 0 /\
  fst (@validate Demo.externals (Scenario.only_dynamic false)
         (Demo.w_empty Demo.net_up)) = Return tt.
Proof.
  destruct (@validate_only_dynamic Demo.externals (Scenario.only_dynamic false)
              "http: {routers: {r1: {rule: Host(`test.com`)}}}"
              (Demo.w_empty Demo.net_up) eq_refl eq_refl) as (Hnone & Hret & _).
  split; [exact Hnone|]. apply Hret. vm_compute. reflexivity.
Defined.

(** X8 on an invalid static file, online with an empty cache. *)
Lemma validate_only_static_witness :
  attempts Dynamic
    (trace (snd (@validate Demo.externals (Scenario.only_static false)
                   (Demo.w_empty Demo.net_up)))) = 0 /\
  fst (@validate Demo.externals (Scenario.only_static false)
         (Demo.w_empty Demo.net_up))
    = Raise (ValidationError "Configuration validation failed").
Proof.
  destruct (@validate_only_static Demo.externals (Scenario.only_static false)
              "entryPoints: {}"
              (Demo.w_empty Demo.net_up) eq_refl eq_refl) as (Hnone & _ & Hagg).
  split; [exact Hnone|]. apply Hagg. vm_compute. reflexivity.
Defined.


(** X11 under [--json --offline] with an empty cache: the JSON object
    reports the offline error, an instance of [ValueError]. *)
Lemma output_framing_witness :
  match snd (fst (@EntryPoint.validate_traefik Demo.externals None
                    Scenario.args_json_offline_static
                    (Demo.w_empty Demo.net_up))) with
  | [EntryPoint.JsonResult false (EntryPoint.MsgOf e)] =>
      e = ValidationError "Configuration validation failed" \/
      is_ValueError e = true
  | _ => False
  end.
Proof.
  assert (Hversion : EntryPoint.version Scenario.args_json_offline_static = false)
    by reflexivity.
  assert (Hfile :
            EntryPoint.static_config Scenario.args_json_offline_static <> None \/
            EntryPoint.dynamic_config Scenario.args_json_offline_static <> None)
    by (left; discriminate).
  pose proof (@output_framing Demo.externals None
                Scenario.args_json_offline_static
                (Demo.w_empty Demo.net_up) Hversion Hfile) as Hframe.
  vm_compute in Hframe. vm_compute.
  destruct Hframe as (_ & _ & Hkind). exact Hkind.
Defined.
